(** * csrf: token issuance and validation middleware (package csrf, csrf.go)

    A shallow embedding of [csrf.go] and of the few library calls it makes,
    followed by the properties of the token life cycle. *)

From Stdlib Require Import ZArith String Ascii List Bool Lia.
From Stdlib Require Import Decimal DecimalString DecimalZ.
From stdpp Require Import base option list gmap strings.

Open Scope string_scope.
Open Scope Z_scope.

(** ** String helpers: package strings, and decimal notation *)

Module strings.

(** [strings.Split(s, sep)] for a one-byte separator: the pieces of [s]
    between the occurrences of [sep], in order. *)
Fixpoint Split (s : string) (sep : ascii) : list string :=
  match s with
  | EmptyString => [EmptyString]
  | String a s' =>
      if Ascii.eqb a sep then EmptyString :: Split s' sep
      else match Split s' sep with
           | p :: ps => String a p :: ps
           | [] => [String a EmptyString]
           end
  end.

(** The text after the last [c] in [s]; [None] when [c] does not occur. *)
Fixpoint after_last (c : ascii) (s : string) : option string :=
  match s with
  | EmptyString => None
  | String a s' =>
      match after_last c s' with
      | Some r => Some r
      | None => if Ascii.eqb a c then Some s' else None
      end
  end.

(** An integer in decimal notation. *)
Definition itoa (n : Z) : string := NilZero.string_of_int (Z.to_int n).

(** Reading decimal notation back: digits, with a minus sign in front
    for a negative number; [None] when [s] is anything else. *)
Definition atoi (s : string) : option Z := Z.of_int <$> NilZero.int_of_string s.

Definition occurs (c : ascii) (s : string) : Prop := In c (list_ascii_of_string s).

End strings.

(** ** Package regexp: the fragment of the RE2 syntax the package uses

    The standard library's parser and matcher, restricted to what
    [domainReg] is written in: literals, escapes, bracket expressions,
    groups, alternation, the three repetition operators and the two
    anchors. Anything else is reported as a syntax error. Matching is on
    bytes, which agrees with matching on runes for ASCII-only classes. *)

Module regexp.

(** Parsed expressions, named after the operators of [regexp/syntax].
    Without flags [^] and [$] are the beginning and the end of the text.
    A group, capturing or not, matches what its body matches. *)
Inductive regex : Type :=
  | EmptyMatch
  | Literal (c : ascii)
  | CharClass (negated : bool) (ranges : list (ascii * ascii))
  | AnyCharNotNL
  | BeginText
  | EndText
  | Concat (r1 r2 : regex)
  | Alternate (r1 r2 : regex)
  | Star (r : regex)
  | Plus (r : regex)
  | Quest (r : regex).

Definition is_char (a c : ascii) : bool := Ascii.eqb a c.

Definition punct (c : ascii) : bool :=
  let n := N_of_ascii c in
  ((33 <=? n) && (n <=? 47) || (58 <=? n) && (n <=? 64) ||
   (91 <=? n) && (n <=? 96) || (123 <=? n) && (n <=? 126))%N.

(** An escape sequence as a set of ranges: [\d], or an escaped
    punctuation character standing for itself. *)
Definition escape (e : ascii) : option (list (ascii * ascii)) :=
  if is_char e "d" then Some [("0", "9")]%char
  else if punct e then Some [(e, e)]
  else None.

(** The items of a bracket expression up to its closing bracket. *)
Fixpoint class_items (s : string) : option (list (ascii * ascii) * string) :=
  match s with
  | EmptyString => None
  | String c rest =>
      if is_char c "]" then Some ([], rest)
      else if is_char c "\" then
        match rest with
        | String e rest' =>
            match escape e, class_items rest' with
            | Some rs, Some (rs', out) => Some ((rs ++ rs')%list, out)
            | _, _ => None
            end
        | EmptyString => None
        end
      else
        match rest with
        | String d (String hi rest') =>
            if is_char d "-" && negb (is_char hi "]") then
              if is_char hi "\" then None
              else if (N_of_ascii hi <? N_of_ascii c)%N then None
              else match class_items rest' with
                   | Some (rs', out) => Some ((c, hi) :: rs', out)
                   | None => None
                   end
            else match class_items rest with
                 | Some (rs', out) => Some ((c, c) :: rs', out)
                 | None => None
                 end
        | _ => match class_items rest with
               | Some (rs', out) => Some ((c, c) :: rs', out)
               | None => None
               end
        end
  end.

Definition parse_class (s : string) : option (regex * string) :=
  match s with
  | String c rest =>
      if is_char c "^"
      then match class_items rest with
           | Some (rs, out) => Some (CharClass true rs, out)
           | None => None
           end
      else match class_items s with
           | Some (rs, out) => Some (CharClass false rs, out)
           | None => None
           end
  | EmptyString => None
  end.

(** One postfix repetition operator, if present. *)
Definition parse_quant (a : regex) (s : string) : regex * string :=
  match s with
  | String q rest =>
      if is_char q "*" then (Star a, rest)
      else if is_char q "+" then (Plus a, rest)
      else if is_char q "?" then (Quest a, rest)
      else (a, s)
  | EmptyString => (a, s)
  end.

Definition seq_of (a r : regex) : regex :=
  match r with
  | EmptyMatch => a
  | _ => Concat a r
  end.

(** Recursive descent: alternation, concatenation, atom. The result
    carries the text left unread. *)
Fixpoint parse_alt (n : nat) (s : string) {struct n} : option (regex * string) :=
  match n with
  | O => None
  | S n =>
      match parse_cat n s with
      | Some (r1, String c s') =>
          if is_char c "|"
          then match parse_alt n s' with
               | Some (r2, out) => Some (Alternate r1 r2, out)
               | None => None
               end
          else Some (r1, String c s')
      | res => res
      end
  end
with parse_cat (n : nat) (s : string) {struct n} : option (regex * string) :=
  match n with
  | O => None
  | S n =>
      match s with
      | EmptyString => Some (EmptyMatch, s)
      | String c _ =>
          if is_char c "|" || is_char c ")" then Some (EmptyMatch, s)
          else match parse_atom n s with
               | Some (a, s1) =>
                   let (a', s2) := parse_quant a s1 in
                   match parse_cat n s2 with
                   | Some (r, out) => Some (seq_of a' r, out)
                   | None => None
                   end
               | None => None
               end
      end
  end
with parse_atom (n : nat) (s : string) {struct n} : option (regex * string) :=
  match n with
  | O => None
  | S n =>
      match s with
      | EmptyString => None
      | String c rest =>
          if is_char c "(" then
            let body := match rest with
                        | String q (String k rest') =>
                            if is_char q "?"
                            then if is_char k ":" then Some rest' else None
                            else Some rest
                        | _ => Some rest
                        end in
            match body with
            | Some b =>
                match parse_alt n b with
                | Some (r, String k out) =>
                    if is_char k ")" then Some (r, out) else None
                | _ => None
                end
            | None => None
            end
          else if is_char c "[" then parse_class rest
          else if is_char c "\" then
            match rest with
            | String e out =>
                match escape e with
                | Some [(lo, hi)] =>
                    if Ascii.eqb lo hi then Some (Literal lo, out)
                    else Some (CharClass false [(lo, hi)], out)
                | _ => None
                end
            | EmptyString => None
            end
          else if is_char c "^" then Some (BeginText, rest)
          else if is_char c "$" then Some (EndText, rest)
          else if is_char c "." then Some (AnyCharNotNL, rest)
          else if is_char c "*" || is_char c "+" || is_char c "?" then None
          else if is_char c "{" || is_char c "}" || is_char c "]" then None
          else Some (Literal c, rest)
      end
  end.

(** [regexp.Compile]: [None] stands for the syntax error. *)
Definition Compile (pattern : string) : option regex :=
  match parse_alt (4 * String.length pattern + 4) pattern with
  | Some (re, EmptyString) => Some re
  | _ => None
  end.

Definition class_mem (negated : bool) (ranges : list (ascii * ascii)) (c : ascii) : bool :=
  xorb negated
    (existsb (fun r => (N_of_ascii (fst r) <=? N_of_ascii c)%N &&
                       (N_of_ascii c <=? N_of_ascii (snd r))%N) ranges).

Definition one (text : list ascii) (p : ascii -> bool) (i : nat) : list nat :=
  match text !! i with
  | Some a => if p a then [S i] else []
  | None => []
  end.

(** The positions reached from [i] by repeating [step]; an iteration that
    does not advance adds no position. *)
Fixpoint star (fuel : nat) (step : nat -> list nat) (i : nat) : list nat :=
  i :: match fuel with
       | O => []
       | S f => flat_map (star f step) (filter (fun j => (i < j)%nat) (step i))
       end.

(** [ends text re i]: every position [j] such that [re] matches the
    bytes of [text] from [i] up to [j]. *)
Fixpoint ends (text : list ascii) (re : regex) (i : nat) : list nat :=
  match re with
  | EmptyMatch => [i]
  | Literal c => one text (Ascii.eqb c) i
  | CharClass negated ranges => one text (class_mem negated ranges) i
  | AnyCharNotNL => one text (fun a => negb (Ascii.eqb a "010")) i
  | BeginText => if (i =? 0)%nat then [i] else []
  | EndText => if (i =? length text)%nat then [i] else []
  | Concat r1 r2 => flat_map (ends text r2) (ends text r1 i)
  | Alternate r1 r2 => (ends text r1 i ++ ends text r2 i)%list
  | Star r => star (length text) (ends text r) i
  | Plus r => flat_map (star (length text) (ends text r)) (ends text r i)
  | Quest r => i :: ends text r i
  end.

Definition matches_at (text : list ascii) (re : regex) (i : nat) : bool :=
  match ends text re i with
  | [] => false
  | _ :: _ => true
  end.

(** The unanchored search of [Regexp.Match]: a match may start anywhere. *)
Definition search (re : regex) (text : list ascii) : bool :=
  existsb (matches_at text re) (seq 0 (S (length text))).

(** [regexp.Match(pattern, b)]: the pair (matched, err); [err] is [None]
    for Go's nil. *)
Definition Match (pattern : string) (b : string) : bool * option string :=
  match Compile pattern with
  | Some re => (search re (list_ascii_of_string b), None)
  | None => (false, Some "error parsing regexp")
  end.

End regexp.

(** ** The request world: heap, martini context, response writer, clock *)

(** [time.Time] as nanoseconds since the Unix epoch. *)
Definition Time : Type := Z.

(** The [csrf] struct. *)
Record csrf : Type := {
  (* Token generated to pass via header, cookie, or hidden form value. *)
  Token : string;
  (* This value must be unique per user. *)
  Id : string;
  (* Secret used along with the unique id above to generate the Token. *)
  Secret : string
}.

(** A pointer to a [csrf] value. *)
Definition loc : Type := nat.

Module http.

(** [http.Cookie], with the fields the package fills in. *)
Record Cookie : Type := {
  Name : string;
  Value : string;
  Path : string;
  Domain : string;
  Expires : Time;
  RawExpires : string;
  MaxAge : Z;
  Secure : bool;
  HttpOnly : bool;
  Raw : string;
  Unparsed : list string
}.

Definition StatusBadRequest : Z := 400.

(** [textproto.CanonicalMIMEHeaderKey] on a key made of letters, digits
    and hyphens: the first letter and every letter after a hyphen in upper
    case, the others in lower case. *)
Definition upper (c : ascii) : ascii :=
  let n := N_of_ascii c in
  if ((97 <=? n) && (n <=? 122))%N then ascii_of_N (n - 32) else c.

Definition lower (c : ascii) : ascii :=
  let n := N_of_ascii c in
  if ((65 <=? n) && (n <=? 90))%N then ascii_of_N (n + 32) else c.

Fixpoint canonical (up : bool) (s : string) : string :=
  match s with
  | EmptyString => EmptyString
  | String c rest =>
      let c' := if up then upper c else lower c in
      String c' (canonical (Ascii.eqb c' "-") rest)
  end.

Definition CanonicalMIMEHeaderKey (key : string) : string := canonical true key.

(** [http.Header]: canonical key to the values sent under it. *)
Definition MIMEHeader : Type := gmap string (list string).

Definition first_value (vs : option (list string)) : string :=
  match vs with
  | Some (v :: _) => v
  | _ => EmptyString
  end.

(** [h.Get(key)]: the first value under the key, or the empty string. *)
Definition Get (h : MIMEHeader) (key : string) : string :=
  first_value ((h : gmap string (list string)) !! CanonicalMIMEHeaderKey key).

(** [h.Add(key, value)] appends to the values under the key. *)
Definition Add (h : MIMEHeader) (key value : string) : MIMEHeader :=
  let k := CanonicalMIMEHeaderKey key in
  <[k := (default [] ((h : gmap string (list string)) !! k) ++ [value])%list]> h.

(** [h.Set(key, value)] replaces the values under the key. *)
Definition Set_ (h : MIMEHeader) (key value : string) : MIMEHeader :=
  <[CanonicalMIMEHeaderKey key := [value]]> h.

(** The parts of [*http.Request] the package reads. [Cookies] is the list
    net/http parses out of the Cookie header lines, in order; [Form] is the
    parsed form that [FormValue] consults. *)
Record Request : Type := {
  Method : string;
  Host : string;
  Header : MIMEHeader;
  Cookies : list Cookie;
  Form : gmap string (list string)
}.

(** [r.Cookie(name)]: the first cookie of that name; [None] stands for
    [ErrNoCookie]. *)
Definition Request_Cookie (r : Request) (name : string) : option Cookie :=
  find (fun c => String.eqb (Name c) name) (Cookies r).

(** [r.FormValue(key)]: the first value of the field, or the empty string. *)
Definition FormValue (r : Request) (key : string) : string :=
  first_value (Form r !! key).

(** What an [http.ResponseWriter] has been told so far: the header map,
    the cookies handed to [http.SetCookie] (kept as structs rather than as
    the Set-Cookie lines they serialise to), the status once written, and
    the lines printed to the body. *)
Record ResponseWriter : Type := {
  WHeader : MIMEHeader;
  WCookies : list Cookie;
  Status : option Z;
  Body : list string
}.

Definition blank : ResponseWriter :=
  {| WHeader := ∅; WCookies := []; Status := None; Body := [] |}.

Definition with_header (f : MIMEHeader -> MIMEHeader) (w : ResponseWriter) : ResponseWriter :=
  {| WHeader := f (WHeader w); WCookies := WCookies w;
     Status := Status w; Body := Body w |}.

(** [http.SetCookie(w, cookie)]. *)
Definition SetCookie (cookie : Cookie) (w : ResponseWriter) : ResponseWriter :=
  {| WHeader := WHeader w; WCookies := (WCookies w ++ [cookie])%list;
     Status := Status w; Body := Body w |}.

(** [w.WriteHeader(code)]: only the first status counts. *)
Definition WriteHeader (code : Z) (w : ResponseWriter) : ResponseWriter :=
  {| WHeader := WHeader w; WCookies := WCookies w;
     Status := match Status w with Some c => Some c | None => Some code end;
     Body := Body w |}.

(** [fmt.Fprintln(w, line)]: writing the body commits the status. *)
Definition Fprintln (line : string) (w : ResponseWriter) : ResponseWriter :=
  {| WHeader := WHeader w; WCookies := WCookies w;
     Status := match Status w with Some c => Some c | None => Some 200 end;
     Body := (Body w ++ [line])%list |}.

(** [http.Error(w, error, code)]. *)
Definition Error (error : string) (code : Z) (w : ResponseWriter) : ResponseWriter :=
  Fprintln error
    (WriteHeader code
       (with_header (fun h => Set_ h "Content-Type" "text/plain; charset=utf-8") w)).

(** martini stops the handler chain once the response is written. *)
Definition Written (w : ResponseWriter) : bool :=
  match Status w with Some _ => true | None => false end.

End http.

(** The state a request's handlers share: the heap of [csrf] values, the
    value martini's context maps to the [Csrf] interface, the response
    writer, and the clock with the number of readings taken so far. *)
Record World : Type := {
  heap : gmap loc csrf;
  mapped : option loc;
  writer : http.ResponseWriter;
  clock : nat -> Time;
  ticks : nat
}.

Definition set_heap (h : gmap loc csrf) (σ : World) : World :=
  {| heap := h; mapped := mapped σ; writer := writer σ;
     clock := clock σ; ticks := ticks σ |}.

Definition set_mapped (x : option loc) (σ : World) : World :=
  {| heap := heap σ; mapped := x; writer := writer σ;
     clock := clock σ; ticks := ticks σ |}.

Definition set_writer (w : http.ResponseWriter) (σ : World) : World :=
  {| heap := heap σ; mapped := mapped σ; writer := w;
     clock := clock σ; ticks := ticks σ |}.

(** The world after one more reading of the clock. *)
Definition tick (σ : World) : World :=
  {| heap := heap σ; mapped := mapped σ; writer := writer σ;
     clock := clock σ; ticks := S (ticks σ) |}.

(** The time the next reading of the clock gives. *)
Definition now_of (σ : World) : Time := clock σ (ticks σ).

(** Handlers run in a state monad over [World]; [None] is a panic. *)
Definition M (A : Type) : Type := World -> option (A * World).

Definition ret {A} (a : A) : M A := fun σ => Some (a, σ).

Definition bind {A B} (m : M A) (k : A -> M B) : M B :=
  fun σ => match m σ with
           | Some (a, σ') => k a σ'
           | None => None
           end.

Definition panic {A} : M A := fun _ => None.

Declare Scope go_scope.
Delimit Scope go_scope with go.
Notation "x <- c1 ;; c2" := (bind c1 (fun x => c2))
  (at level 100, c1 at next level, right associativity) : go_scope.
Notation "c1 ;; c2" := (bind c1 (fun _ => c2))
  (at level 100, right associativity) : go_scope.
Open Scope go_scope.

(** [time.Now()]: the next reading of the clock. *)
Definition time_Now : M Time :=
  fun σ => Some (now_of σ, tick σ).

(** [&csrf{...}]: a fresh cell. *)
Definition new (o : csrf) : M loc :=
  fun σ => let x := fresh (dom (heap σ)) in
           Some (x, set_heap (<[x := o]> (heap σ)) σ).

(** Reading through a pointer panics when nothing is allocated there. *)
Definition load (x : loc) : M csrf :=
  fun σ => match heap σ !! x with
           | Some o => Some (o, σ)
           | None => None
           end.

Definition store (x : loc) (f : csrf -> csrf) : M unit :=
  fun σ => match heap σ !! x with
           | Some o => Some (tt, set_heap (<[x := f o]> (heap σ)) σ)
           | None => None
           end.

(** [x.Id = v] and [x.Token = v]. *)
Definition set_Id (x : loc) (v : string) : M unit :=
  store x (fun o => {| Token := Token o; Id := v; Secret := Secret o |}).

Definition set_Token (x : loc) (v : string) : M unit :=
  store x (fun o => {| Token := v; Id := Id o; Secret := Secret o |}).

(** [c.MapTo(x, ...)] at the interface type [Csrf]: later handlers asking
    for a [Csrf] get [x]. *)
Definition MapTo (x : loc) : M unit :=
  fun σ => Some (tt, set_mapped (Some x) σ).

(** A call that acts on the response writer [w]. *)
Definition on_writer (f : http.ResponseWriter -> http.ResponseWriter) : M unit :=
  fun σ => Some (tt, set_writer (f (writer σ)) σ).

(** [l[i]]: indexing out of range panics. *)
Definition index_at {A} (l : list A) (i : nat) : M A :=
  match l !! i with
  | Some a => ret a
  | None => panic
  end.

(** ** Package xsrftoken: the token codec *)

Module xsrftoken.

Section TokenCodec.

(** Modelled from the spec: the keyed tag over (secret, subject id, action
    label, timestamp) of the imported package xsrftoken; the hash itself is
    left open. *)
Variable mac : string -> string -> string -> Z -> string.

(** Modelled from the spec: the hardwired expiry duration of the imported
    package xsrftoken, which is not among the sources; 24 hours, in
    nanoseconds. *)
Definition Timeout : Z := 24 * 60 * 60 * 1000000000.

(** Modelled from the spec: [derive] of the token codec (the body of
    [xsrftoken.Generate], imported and not among the sources). The token
    binds the three inputs and the time in a keyed tag and embeds the
    timestamp after it. *)
Definition derive (secret subjectId actionLabel : string) (now : Time) : string :=
  mac secret subjectId actionLabel now +:+ String ":" (strings.itoa now).

(** Modelled from the spec: the validity window of a token stamped [t],
    seen at [now]: the expiry duration has not elapsed. *)
Definition within_window (t now : Time) : bool := now - t <? Timeout.

(** Modelled from the spec: [verify] of the token codec (the body of
    [xsrftoken.Valid], imported and not among the sources). It reads the
    embedded timestamp, rejects a candidate with none or with one outside
    the validity window, and accepts exactly the token [derive] gives for
    that timestamp. *)
Definition verify (candidate secret subjectId actionLabel : string) (now : Time) : bool :=
  match strings.after_last ":" candidate with
  | None => false
  | Some stamp =>
      match strings.atoi stamp with
      | None => false
      | Some t =>
          if within_window t now
          then String.eqb candidate (derive secret subjectId actionLabel t)
          else false
      end
  end.

(** Modelled from the spec: [xsrftoken.Generate(key, userID, actionID)],
    imported and not among the sources, mints with [derive] at the current
    wall-clock time. *)
Definition Generate (key userID actionID : string) : M string :=
  now <- time_Now ;; ret (derive key userID actionID now).

(** Modelled from the spec: [xsrftoken.Valid(token, key, userID, actionID)],
    imported and not among the sources, is [verify] at the current time. *)
Definition Valid (token key userID actionID : string) : M bool :=
  now <- time_Now ;; ret (verify token key userID actionID now).

End TokenCodec.

End xsrftoken.

(** ** Package sessions *)

Module sessions.

(** A dynamically typed session value ([interface{}]). *)
Inductive any : Type :=
  | VString (s : string)
  | VInt (n : Z)
  | VBool (b : bool)
  | VBytes (b : list ascii).

(** The session as the key-value lookup [s.Get]; [None] is Go's nil. *)
Definition Session : Type := gmap string any.

Definition Get (s : Session) (key : string) : option any :=
  (s : gmap string any) !! key.

End sessions.

(** ** Package csrf *)

(** Maintains options to manage behavior of Generate. *)
Module Options.
Record t : Type := {
  (* The global secret value used to generate Tokens. *)
  Secret : string;
  (* Key used for getting the unique Id per user. *)
  SessionKey : string;
  (* If true, send token via X-CSRFToken header. *)
  SetHeader : bool;
  (* If true, send token via _csrf cookie. *)
  SetCookie : bool;
  (* Set the Secure flag to true on the cookie. *)
  Secure : bool
}.
End Options.

Definition domainReg : string :=
  "/^\.?[a-z\d]+(?:(?:[a-z\d]*)|(?:[a-z\d\-]*[a-z\d]))(?:\.[a-z\d]+(?:(?:[a-z\d]*)|(?:[a-z\d\-]*[a-z\d])))*$/".

(** Csrf is used to get the current token and validate a suspect token. *)
Class Csrf (X : Type) : Type := {
  (* Return the token. *)
  GetToken : X -> M string;
  (* Validate by token. *)
  ValidToken : X -> string -> M bool
}.

Section Middleware.

Variable mac : string -> string -> string -> Z -> string.

(** [t.AddDate(years, months, days)] and [t.Format(layout)] of package
    time: calendar arithmetic and printing, left open. *)
Variable AddDate : Time -> Z -> Z -> Z -> Time.
Variable Format : Time -> string -> string.

Definition UnixDate : string := "Mon Jan _2 15:04:05 MST 2006".

(** The methods of [*csrf]. *)
Definition csrf_GetToken (c : loc) : M string :=
  o <- load c ;; ret (Token o).

Definition csrf_ValidToken (c : loc) (t : string) : M bool :=
  o <- load c ;; xsrftoken.Valid mac t (Secret o) (Id o) "POST".

#[export] Instance csrf_Csrf : Csrf loc :=
  {| GetToken := csrf_GetToken; ValidToken := csrf_ValidToken |}.

(** The branch of [Generate] that generates a new token and, when the
    options ask for it, sends it in the [_csrf] cookie. *)
Definition mint (opts : Options.t) (r : http.Request) (x : loc) : M unit :=
  o <- load x ;;
  tok <- xsrftoken.Generate mac (Secret o) (Id o) "POST" ;;
  set_Token x tok ;;
  if Options.SetCookie opts then
    now <- time_Now ;;
    let expire := AddDate now 0 0 1 in
    (* Verify the domain is valid. If it is not, set as empty. *)
    domain <- index_at (strings.Split (http.Host r) ":") 0 ;;
    let '(ok, err) := regexp.Match domainReg domain in
    let domain := if negb ok || bool_decide (err <> None) then EmptyString else domain in
    o <- load x ;;
    on_writer (http.SetCookie
      {| http.Name := "_csrf";
         http.Value := Token o;
         http.Path := "/";
         http.Domain := domain;
         http.Expires := expire;
         http.RawExpires := Format expire UnixDate;
         http.MaxAge := 0;
         http.Secure := Options.Secure opts;
         http.HttpOnly := false;
         http.Raw := "_csrf=" +:+ Token o;
         http.Unparsed := ["token=" +:+ Token o] |})
  else ret tt.

(** Maps Csrf to each request. If this request is a Get request, it will
    generate a new token. Additionally, depending on options set, generated
    tokens will be sent via Header and/or Cookie. *)
Definition Generate (opts : Options.t) (s : sessions.Session) (r : http.Request) : M unit :=
  x <- new {| Token := ""; Id := ""; Secret := Options.Secret opts |} ;;
  MapTo x ;;
  match sessions.Get s (Options.SessionKey opts) with
  | None => ret tt
  | Some (sessions.VString uid) =>
      set_Id x uid ;;
      (* Don't set cookie or send header if this is not a get request
         or was sent via an api request. *)
      if String.eqb (http.Method r) "GET"
         && String.eqb (http.Get (http.Header r) "X-API-Key") "" then
        (* If cookie present, map existing token, else generate a new one. *)
        match http.Request_Cookie r "_csrf" with
        | Some ex =>
            if negb (String.eqb (http.Value ex) "")
            then set_Token x (http.Value ex)
            else mint opts r x
        | None => mint opts r x
        end ;;
        if Options.SetHeader opts then
          o <- load x ;;
          on_writer (http.with_header (fun h => http.Add h "X-CSRFToken" (Token o)))
        else ret tt
      else ret tt
  | Some _ => ret tt
  end.

(** Validate should be used as a per route middleware. It attempts to get
    a token from a "X-CSRFToken" HTTP header and then a "_csrf" form value.
    If one of these is found, the token will be validated using ValidToken.
    If this validation fails, http.StatusBadRequest is sent in the reply.
    If neither a header or form value is found, http.StatusBadRequest is
    sent. *)
Definition Validate {X} `{Csrf X} (r : http.Request) (x : X) : M unit :=
  let token := http.Get (http.Header r) "X-CSRFToken" in
  if negb (String.eqb token "") then
    ok <- ValidToken x token ;;
    if negb ok
    then on_writer (http.Error "Invalid X-CSRFToken" http.StatusBadRequest)
    else ret tt
  else
    let token := http.FormValue r "_csrf" in
    if negb (String.eqb token "") then
      ok <- ValidToken x token ;;
      if negb ok
      then on_writer (http.Error "Invalid _csrf token" http.StatusBadRequest)
      else ret tt
    else on_writer (http.Error "Bad Request" http.StatusBadRequest).

End Middleware.

(** ** Vocabulary of the statements *)

(** The request host without its port: what comes before the first colon. *)
Definition strip_port (host : string) : string :=
  hd EmptyString (strings.Split host ":").

(** The cookie domain [Generate] settles on: the host without its port if
    [domainReg] matches it, the empty string otherwise. *)
Definition checked_domain (host : string) : string :=
  match regexp.Match domainReg (strip_port host) with
  | (true, None) => strip_port host
  | _ => EmptyString
  end.

(** The cookie [Generate] sends for the token [tok] with expiry [expire]. *)
Definition sent_cookie (Format : Time -> string -> string) (opts : Options.t)
    (host tok : string) (expire : Time) : http.Cookie :=
  {| http.Name := "_csrf";
     http.Value := tok;
     http.Path := "/";
     http.Domain := checked_domain host;
     http.Expires := expire;
     http.RawExpires := Format expire "Mon Jan _2 15:04:05 MST 2006";
     http.MaxAge := 0;
     http.Secure := Options.Secure opts;
     http.HttpOnly := false;
     http.Raw := "_csrf=" +:+ tok;
     http.Unparsed := ["token=" +:+ tok] |}.

(** The response header [Generate] adds when the options ask for it. *)
Definition sent_header (opts : Options.t) (tok : string) (w : http.ResponseWriter) :
    http.ResponseWriter :=
  if Options.SetHeader opts
  then http.with_header (fun h => http.Add h "X-CSRFToken" tok) w
  else w.

(** The world [Generate] leaves behind when started in [σ]: one new
    context [o], mapped to [Csrf]; the response writer [w]; [n] further
    readings of the clock. *)
Definition generated (σ : World) (o : csrf) (w : http.ResponseWriter) (n : nat) : World :=
  {| heap := <[fresh (dom (heap σ)) := o]> (heap σ);
     mapped := Some (fresh (dom (heap σ)));
     writer := w;
     clock := clock σ;
     ticks := n + ticks σ |}.

(** The context martini hands to later handlers, if one is mapped. *)
Definition context_of (σ : World) : option csrf :=
  match mapped σ with
  | Some x => heap σ !! x
  | None => None
  end.

(** ** A sample deployment

    The options and the session of the example in the package
    documentation, with stand-ins for the keyed hash and the calendar. *)

Module sample.

Definition day : Z := 86400000000000.

(** A stand-in for the keyed hash: it spells out what it binds. *)
Definition mac (key subject action : string) (t : Z) : string :=
  subject +:+ String "|" (key +:+ String "|" (action +:+ String "|" (strings.itoa t))).

(** Adding days in UTC; the package only ever adds one day. *)
Definition AddDate (t : Time) (years months days : Z) : Time := t + days * day.

Definition Format (t : Time) (layout : string) : string := strings.itoa t.

Definition opts : Options.t :=
  {| Options.Secret := "token123";
     Options.SessionKey := "userId";
     Options.SetHeader := true;
     Options.SetCookie := true;
     Options.Secure := false |}.

Definition session : sessions.Session := {[ "userId" := sessions.VString "123456" ]}.

(** A request with nothing handled yet; the clock advances by one second
    per reading. *)
Definition start : World :=
  {| heap := ∅; mapped := None; writer := http.blank;
     clock := fun n => Z.of_nat n * 1000000000 + 1700000000000000000;
     ticks := 0 |}.

(** A cookie as it arrives in a request: a name and a value. *)
Definition cookie (name value : string) : http.Cookie :=
  {| http.Name := name; http.Value := value; http.Path := "";
     http.Domain := ""; http.Expires := 0; http.RawExpires := "";
     http.MaxAge := 0; http.Secure := false; http.HttpOnly := false;
     http.Raw := ""; http.Unparsed := [] |}.

(** The context of user 123456 as [Generate] leaves it on a POST. *)
Definition context : csrf :=
  {| Token := ""; Id := "123456"; Secret := "token123" |}.

Definition serving : World := set_mapped (Some 0%nat) (set_heap {[ 0%nat := context ]} start).

(** A request as net/http presents it: header keys are stored in canonical
    form. *)
Definition request (method host : string) (header : list (string * list string))
    (cookies : list (string * string)) (form : list (string * list string)) : http.Request :=
  {| http.Method := method;
     http.Host := host;
     http.Header :=
       list_to_map (map (fun kv => (http.CanonicalMIMEHeaderKey (fst kv), snd kv)) header);
     http.Cookies := map (fun nv => cookie (fst nv) (snd nv)) cookies;
     http.Form := list_to_map form |}.

(** A token for user 123456 issued one second before [start]. *)
Definition token : string :=
  xsrftoken.derive mac "token123" "123456" "POST" 1699999999000000000.

Definition post_with_header (tok : string) : http.Request :=
  request "POST" "example.com:3000" [("X-CSRFToken", [tok])] []
    [("_csrf", ["left alone"])].

Definition post_with_field (tok : string) : http.Request :=
  request "POST" "example.com:3000" [] [] [("_csrf", [tok])].

Definition post_bare : http.Request :=
  request "POST" "example.com:3000" [] [] [].

Definition get_page : http.Request :=
  request "GET" "example.com:3000" [] [] [].

Definition get_with_cookie : http.Request :=
  request "GET" "example.com:3000" [] [("_csrf", "abc")] [].

Definition get_with_cookie_and_api_key : http.Request :=
  request "GET" "example.com:3000" [("X-API-Key", ["k-42"])] [("_csrf", "abc")] [].

Definition get_with_api_key : http.Request :=
  request "GET" "example.com:3000" [("X-API-Key", ["k-42"])] [] [].

End sample.

(** ** Vocabulary of the further statements *)

(** The subject id [Generate] gives the context: the session value under
    the session key when it is a string, the empty string otherwise. *)
Definition subject_of (opts : Options.t) (s : sessions.Session) : string :=
  match sessions.Get s (Options.SessionKey opts) with
  | Some (sessions.VString uid) => uid
  | _ => EmptyString
  end.

(** All the values a header map holds under a key ([h[key]] for the
    canonical key). *)
Definition header_values (h : http.MIMEHeader) (key : string) : list string :=
  default [] ((h : gmap string (list string)) !! http.CanonicalMIMEHeaderKey key).

(** The token [Validate] checks: the X-CSRFToken header when it is not
    empty, the _csrf form field otherwise. *)
Definition candidate (r : http.Request) : string :=
  if String.eqb (http.Get (http.Header r) "X-CSRFToken") ""
  then http.FormValue r "_csrf"
  else http.Get (http.Header r) "X-CSRFToken".

(** The reply [Validate] gives for a candidate that fails, or for none. *)
Definition rejection (r : http.Request) : string :=
  if negb (String.eqb (http.Get (http.Header r) "X-CSRFToken") "")
  then "Invalid X-CSRFToken"
  else if negb (String.eqb (http.FormValue r "_csrf") "")
       then "Invalid _csrf token"
       else "Bad Request".

(** Further requests of the sample deployment. *)
Module scenario.

(** A second _csrf cookie after a first one. *)
Definition get_with_two_cookies (first second : string) : http.Request :=
  sample.request "GET" "example.com:3000" [] [("_csrf", first); ("_csrf", second)] [].

(** A response under way: headers and a cookie are set, nothing is sent. *)
Definition under_way : World :=
  set_writer
    {| http.WHeader := {[ "X-Csrftoken" := ["earlier"]; "Server" := ["martini"] ]};
       http.WCookies := [sample.cookie "my_session" "opaque"];
       http.Status := None;
       http.Body := [] |}
    sample.serving.

(** The same deployment without the cookie channel. *)
Definition header_only : Options.t :=
  {| Options.Secret := "token123";
     Options.SessionKey := "userId";
     Options.SetHeader := true;
     Options.SetCookie := false;
     Options.Secure := false |}.

(** A session whose user id is stored as a number. *)
Definition numeric_session : sessions.Session :=
  {[ "userId" := sessions.VInt 123456 ]}.

(** A later request: the clock starts [later] nanoseconds after
    [sample.start]. *)
Definition start_after (later : Z) : World :=
  {| heap := ∅; mapped := None; writer := http.blank;
     clock := fun n => Z.of_nat n * 1000000000 + (1700000000000000000 + later);
     ticks := 0 |}.

End scenario.

(** An instance of the keyed tag that treats its inputs as package
    xsrftoken (imported, not among the sources) treats them: the colons in
    the subject and in the action are replaced by underscores
    ([strings.Replace(s, ":", "_", -1)]) before subject, action and timestamp
    are joined by colons and handed to a keyed hash [h]. *)
Module joined.




(** The context of a user whose id is [a_b], on a request under way. *)
Definition context : csrf :=
  {| Token := ""; Id := "a_b"; Secret := "token123" |}.

Definition serving : World :=
  set_mapped (Some 0%nat) (set_heap {[ 0%nat := context ]} sample.start).

End joined.

(** ** Sanity checks of the embedding on concrete inputs *)

Example canonical_csrf_header : http.CanonicalMIMEHeaderKey "X-CSRFToken" = "X-Csrftoken".
Proof. reflexivity. Qed.

Example canonical_api_key : http.CanonicalMIMEHeaderKey "X-API-Key" = "X-Api-Key".
Proof. reflexivity. Qed.

Example split_host_port : strings.Split "example.com:3000" ":" = ["example.com"; "3000"].
Proof. reflexivity. Qed.

Example split_no_port : strings.Split "localhost" ":" = ["localhost"].
Proof. reflexivity. Qed.

(** The expression between the slashes of [domainReg] does accept
    hostnames: the matcher is not at fault for what [domainReg] rejects. *)
Definition hostname_shape : string :=
  "^\.?[a-z\d]+(?:(?:[a-z\d]*)|(?:[a-z\d\-]*[a-z\d]))(?:\.[a-z\d]+(?:(?:[a-z\d]*)|(?:[a-z\d\-]*[a-z\d])))*$".

Example domainReg_is_slashed : domainReg = String "/" (hostname_shape +:+ "/").
Proof. reflexivity. Qed.

Example hostname_shape_accepts :
  regexp.Match hostname_shape "example.com" = (true, None) /\
  regexp.Match hostname_shape "my-host.example.org" = (true, None) /\
  regexp.Match hostname_shape "localhost" = (true, None).
Proof. repeat split; vm_compute; reflexivity. Qed.

Example hostname_shape_rejects :
  regexp.Match hostname_shape "Example.com" = (false, None) /\
  regexp.Match hostname_shape "a..b" = (false, None) /\
  regexp.Match hostname_shape "host-" = (false, None) /\
  regexp.Match hostname_shape "" = (false, None).
Proof. repeat split; vm_compute; reflexivity. Qed.

Example unbalanced_group_is_an_error : regexp.Compile "(a" = None.
Proof. vm_compute. reflexivity. Qed.

(** ** Facts about the string helpers *)

Module strings_facts.
Import strings.

Lemma Split_not_nil s sep : Split s sep <> [].
Proof.
  induction s as [|a s IH]; simpl; [discriminate|].
  destruct (Ascii.eqb a sep); [discriminate|].
  destruct (Split s sep); discriminate.
Qed.

Lemma after_last_none c s : ~ occurs c s -> after_last c s = None.
Proof.
  unfold occurs. induction s as [|a s IH]; simpl; intros H; [reflexivity|].
  rewrite IH by tauto.
  destruct (Ascii.eqb_spec a c) as [->|]; [tauto|reflexivity].
Qed.

Lemma after_last_app c s r :
  ~ occurs c r -> after_last c (s +:+ String c r) = Some r.
Proof.
  intros Hr. induction s as [|a s IH]; simpl.
  - rewrite after_last_none by exact Hr. now rewrite Ascii.eqb_refl.
  - now rewrite IH.
Qed.

Lemma after_last_suffix c s r :
  after_last c s = Some r -> exists p, s = p +:+ String c r.
Proof.
  revert r. induction s as [|a s IH]; simpl; intros r; [discriminate|].
  destruct (after_last c s) as [r'|] eqn:E.
  - intros [= <-]. destruct (IH r' eq_refl) as [p ->].
    now exists (String a p).
  - destruct (Ascii.eqb_spec a c) as [->|]; [|discriminate].
    intros [= <-]. now exists EmptyString.
Qed.

Lemma uint_digits_no_colon d : ~ occurs ":" (NilEmpty.string_of_uint d).
Proof.
  unfold occurs.
  induction d; simpl; intros H; try tauto;
    (destruct H as [H|H]; [discriminate H | tauto]).
Qed.

Lemma itoa_no_colon n : ~ occurs ":" (itoa n).
Proof.
  unfold itoa, NilZero.string_of_int, NilZero.string_of_uint, occurs.
  destruct (Z.to_int n) as [d|d]; destruct d; simpl;
    intros H; repeat (destruct H as [H|H]; [discriminate H|]);
    try tauto; now apply (uint_digits_no_colon _ H).
Qed.

Lemma atoi_itoa n : atoi (itoa n) = Some n.
Proof.
  unfold atoi, itoa. pose proof (DecimalZ.of_to n) as Hn.
  destruct (Z.to_int n) as [d|d]; destruct d;
    try (rewrite NilZero.isi by discriminate; unfold fmap, option_fmap, option_map;
         now rewrite Hn).
  - now subst n.
  - now subst n.
Qed.



End strings_facts.

(** ** The token codec *)

Section TokenCodecFacts.

Variable mac : string -> string -> string -> Z -> string.

#[local] Abbreviation derive := (xsrftoken.derive mac).
#[local] Abbreviation verify := (xsrftoken.verify mac).

Lemma derive_stamp s u a t :
  strings.after_last ":" (derive s u a t) = Some (strings.itoa t).
Proof.
  unfold xsrftoken.derive. apply strings_facts.after_last_app, strings_facts.itoa_no_colon.
Qed.

Lemma verify_derive s u a t now :
  xsrftoken.within_window t now = true ->
  verify (derive s u a t) s u a now = true.
Proof.
  intros Hw. unfold xsrftoken.verify.
  rewrite derive_stamp, strings_facts.atoi_itoa, Hw. apply String.eqb_refl.
Qed.

Lemma verify_expired s u a t now :
  xsrftoken.within_window t now = false ->
  forall s' u' a', verify (derive s u a t) s' u' a' now = false.
Proof.
  intros Hw s' u' a'. unfold xsrftoken.verify.
  now rewrite derive_stamp, strings_facts.atoi_itoa, Hw.
Qed.

Lemma verify_sound c s u a now :
  verify c s u a now = true ->
  exists t, c = derive s u a t /\ xsrftoken.within_window t now = true.
Proof.
  unfold xsrftoken.verify.
  destruct (strings.after_last ":" c) as [stamp|]; [|discriminate].
  destruct (strings.atoi stamp) as [t|]; [|discriminate].
  destruct (xsrftoken.within_window t now) eqn:Hw; [|discriminate].
  intros H. apply String.eqb_eq in H. now exists t.
Qed.

(** The model of [verify] is the contract of the spec: true exactly for a
    token [derive] produces for the same inputs and a timestamp within the
    window. *)
Lemma verify_spec c s u a now :
  verify c s u a now = true <->
  exists t, c = derive s u a t /\ xsrftoken.within_window t now = true.
Proof.
  split; [apply verify_sound|].
  intros (t & -> & Hw). now apply verify_derive.
Qed.


End TokenCodecFacts.

(** ** The [*csrf] methods *)

Section ContextFacts.

Variable mac : string -> string -> string -> Z -> string.

Lemma GetToken_run σ c o :
  heap σ !! c = Some o -> csrf_GetToken c σ = Some (Token o, σ).
Proof. intros H. unfold csrf_GetToken, bind, load, ret. now rewrite H. Qed.

Lemma ValidToken_run σ c o cand :
  heap σ !! c = Some o ->
  csrf_ValidToken mac c cand σ
  = Some (xsrftoken.verify mac cand (Secret o) (Id o) "POST" (now_of σ), tick σ).
Proof.
  intros H. unfold csrf_ValidToken, xsrftoken.Valid, bind, load, time_Now, ret.
  now rewrite H.
Qed.

Lemma Generate_token_run s u a σ :
  xsrftoken.Generate mac s u a σ = Some (xsrftoken.derive mac s u a (now_of σ), tick σ).
Proof. reflexivity. Qed.

End ContextFacts.

(** C1. Round trip: a token derived for secret [s] and subject [u] under
    the action label POST at a time [t] within the validity window of [now]
    verifies against the same [s], [u] and POST at [now]; so [ValidToken] on
    a context holding [s] and [u] accepts it, and in particular accepts the
    token [xsrftoken.Generate] issued for that context at an earlier reading
    of the clock that is still within the window. *)
Theorem derive_verify_roundtrip (mac : string -> string -> string -> Z -> string) :
  (forall s u t now,
      xsrftoken.within_window t now = true ->
      xsrftoken.verify mac (xsrftoken.derive mac s u "POST" t) s u "POST" now = true) /\
  (forall σ c o t,
      heap σ !! c = Some o ->
      xsrftoken.within_window t (now_of σ) = true ->
      csrf_ValidToken mac c (xsrftoken.derive mac (Secret o) (Id o) "POST" t) σ
      = Some (true, tick σ)) /\
  (forall σ0 σ0' tok σ c o,
      xsrftoken.Generate mac (Secret o) (Id o) "POST" σ0 = Some (tok, σ0') ->
      heap σ !! c = Some o ->
      xsrftoken.within_window (now_of σ0) (now_of σ) = true ->
      csrf_ValidToken mac c tok σ = Some (true, tick σ)).
Proof.
  split; [|split].
  - intros s u t now Hw. now apply verify_derive.
  - intros σ c o t Hc Hw. rewrite (ValidToken_run mac σ c o _ Hc).
    now rewrite verify_derive.
  - intros σ0 σ0' tok σ c o Hg Hc Hw. rewrite Generate_token_run in Hg.
    injection Hg as <- _. rewrite (ValidToken_run mac σ c o _ Hc).
    now rewrite verify_derive.
Qed.

Lemma derive_verify_roundtrip_witness :
  xsrftoken.verify sample.mac
    (xsrftoken.derive sample.mac "token123" "123456" "POST" 1699999999000000000)
    "token123" "123456" "POST" 1700000000000000000 = true /\
  csrf_ValidToken sample.mac 0%nat
    (xsrftoken.derive sample.mac "token123" "123456" "POST" 1699999999000000000)
    sample.serving = Some (true, tick sample.serving) /\
  csrf_ValidToken sample.mac 0%nat
    (xsrftoken.derive sample.mac "token123" "123456" "POST" (now_of sample.start))
    sample.serving = Some (true, tick sample.serving).
Proof.
  destruct (derive_verify_roundtrip sample.mac) as (Hpure & Hctx & Hgen).
  split; [|split].
  - apply Hpure. reflexivity.
  - apply (Hctx sample.serving 0%nat sample.context); reflexivity.
  - apply (Hgen sample.start (tick sample.start) _ sample.serving 0%nat sample.context);
      reflexivity.
Defined.




(** C8. On a context that exists, [ValidToken] evaluates to a boolean for
    every candidate string and never panics; the boolean is false for every
    candidate that [derive] does not produce for the context's secret and
    subject, among them the empty string, a string without the timestamp
    separator and one whose timestamp does not parse. *)
Theorem ValidToken_total_and_false_on_malformed
    (mac : string -> string -> string -> Z -> string) σ c o :
  heap σ !! c = Some o ->
  (forall cand, exists b, csrf_ValidToken mac c cand σ = Some (b, tick σ)) /\
  (forall cand,
      (forall t, cand <> xsrftoken.derive mac (Secret o) (Id o) "POST" t) ->
      csrf_ValidToken mac c cand σ = Some (false, tick σ)) /\
  csrf_ValidToken mac c "" σ = Some (false, tick σ) /\
  (forall cand,
      strings.after_last ":" cand = None ->
      csrf_ValidToken mac c cand σ = Some (false, tick σ)) /\
  (forall cand stamp,
      strings.after_last ":" cand = Some stamp -> strings.atoi stamp = None ->
      csrf_ValidToken mac c cand σ = Some (false, tick σ)).
Proof.
  intros Hc. repeat split.
  - intros cand. rewrite (ValidToken_run mac σ c o _ Hc). eauto.
  - intros cand Hnot. rewrite (ValidToken_run mac σ c o _ Hc).
    destruct (xsrftoken.verify mac cand (Secret o) (Id o) "POST" (now_of σ)) eqn:E;
      [|reflexivity].
    apply verify_sound in E. destruct E as (t & -> & _). now destruct (Hnot t).
  - now rewrite (ValidToken_run mac σ c o _ Hc).
  - intros cand Hsep. rewrite (ValidToken_run mac σ c o _ Hc).
    unfold xsrftoken.verify. now rewrite Hsep.
  - intros cand stamp Hsep Hstamp. rewrite (ValidToken_run mac σ c o _ Hc).
    unfold xsrftoken.verify. now rewrite Hsep, Hstamp.
Qed.

Lemma ValidToken_total_and_false_on_malformed_witness :
  csrf_ValidToken sample.mac 0%nat "" sample.serving = Some (false, tick sample.serving) /\
  csrf_ValidToken sample.mac 0%nat "garbage" sample.serving
  = Some (false, tick sample.serving) /\
  csrf_ValidToken sample.mac 0%nat "123456|token123|POST|12:12x" sample.serving
  = Some (false, tick sample.serving).
Proof.
  destruct (ValidToken_total_and_false_on_malformed sample.mac
              sample.serving 0%nat sample.context eq_refl)
    as (_ & _ & Hempty & Hsep & Hstamp).
  split; [exact Hempty | split].
  - apply Hsep. reflexivity.
  - apply (Hstamp _ "12x"); reflexivity.
Defined.

(** ** Running the monad *)

Lemma bind_run {A B} (m : M A) (k : A -> M B) σ a σ' :
  m σ = Some (a, σ') -> bind m k σ = k a σ'.
Proof. intros H. unfold bind. now rewrite H. Qed.

Lemma load_run x o σ : heap σ !! x = Some o -> load x σ = Some (o, σ).
Proof. intros H. unfold load. now rewrite H. Qed.

Lemma store_run x f o σ :
  heap σ !! x = Some o ->
  store x f σ = Some (tt, set_heap (<[x := f o]> (heap σ)) σ).
Proof. intros H. unfold store. now rewrite H. Qed.

Lemma index_at_run {A} (l : list A) i a σ :
  l !! i = Some a -> index_at l i σ = Some (a, σ).
Proof. intros H. unfold index_at. now rewrite H. Qed.

Lemma Split_head host : strings.Split host ":" !! 0%nat = Some (strip_port host).
Proof.
  unfold strip_port. pose proof (strings_facts.Split_not_nil host ":") as H.
  destruct (strings.Split host ":"); [contradiction|reflexivity].
Qed.

Lemma domain_check (p : bool * option string) d :
  (let '(ok, err) := p in
   if negb ok || bool_decide (err <> None) then EmptyString else d)
  = match p with (true, None) => d | _ => EmptyString end.
Proof. destruct p as [[|] [e|]]; reflexivity. Qed.

Ltac world :=
  cbn [heap mapped writer clock ticks set_heap set_mapped set_writer tick now_of].

(** ** What [Generate] does, branch by branch *)

Section GenerateFacts.

Variable mac : string -> string -> string -> Z -> string.
Variable AddDate : Time -> Z -> Z -> Z -> Time.
Variable Format : Time -> string -> string.

Lemma mint_run opts r x o σ :
  heap σ !! x = Some o ->
  let tok := xsrftoken.derive mac (Secret o) (Id o) "POST" (now_of σ) in
  let o' := {| Token := tok; Id := Id o; Secret := Secret o |} in
  mint mac AddDate Format opts r x σ =
  Some (tt,
    if Options.SetCookie opts then
      set_writer
        (http.SetCookie
           (sent_cookie Format opts (http.Host r) tok (AddDate (now_of (tick σ)) 0 0 1))
           (writer σ))
        (tick (tick (set_heap (<[x := o']> (heap σ)) σ)))
    else tick (set_heap (<[x := o']> (heap σ)) σ)).
Proof.
  intros Hx tok o'. unfold mint.
  rewrite (bind_run _ _ _ _ _ (load_run _ _ _ Hx)).
  rewrite (bind_run _ _ _ _ _ (Generate_token_run mac _ _ _ _)).
  unfold set_Token at 1.
  rewrite (bind_run _ _ _ _ _ (store_run x _ o (tick σ) Hx)).
  destruct (Options.SetCookie opts); [|reflexivity].
  rewrite (bind_run _ _ _ _ _ (eq_refl : time_Now _ = Some (_, _))).
  rewrite (bind_run _ _ _ _ _ (index_at_run _ _ _ _ (Split_head _))).
  unfold sent_cookie, checked_domain.
  destruct (regexp.Match domainReg (strip_port (http.Host r))) as [[|] [e|]];
    (erewrite bind_run by (apply load_run; world; apply lookup_insert_eq));
    reflexivity.
Qed.

Lemma fresh_unused (σ : World) : heap σ !! fresh (dom (heap σ)) = None.
Proof. apply not_elem_of_dom, is_fresh. Qed.

Lemma Generate_no_subject opts s r σ :
  (forall uid, sessions.Get s (Options.SessionKey opts) <> Some (sessions.VString uid)) ->
  Generate mac AddDate Format opts s r σ
  = Some (tt, generated σ {| Token := ""; Id := ""; Secret := Options.Secret opts |}
                (writer σ) 0).
Proof.
  intros Hno. unfold Generate.
  rewrite (bind_run _ _ _ _ _ (eq_refl : new _ _ = Some (_, _))).
  rewrite (bind_run _ _ _ _ _ (eq_refl : MapTo _ _ = Some (_, _))).
  destruct (sessions.Get s (Options.SessionKey opts)) as [[uid| | |]|];
    try reflexivity.
  now destruct (Hno uid).
Qed.

(** The first statements of [Generate] for a string subject: the context
    is built, mapped and given its id; the rest runs in that world. *)
Lemma Generate_subject opts s r σ uid :
  sessions.Get s (Options.SessionKey opts) = Some (sessions.VString uid) ->
  let x := fresh (dom (heap σ)) in
  let o := {| Token := ""; Id := uid; Secret := Options.Secret opts |} in
  let σ1 := set_mapped (Some x) (set_heap (<[x := o]> (heap σ)) σ) in
  Generate mac AddDate Format opts s r σ
  = (if String.eqb (http.Method r) "GET"
        && String.eqb (http.Get (http.Header r) "X-API-Key") ""
     then
       match http.Request_Cookie r "_csrf" with
       | Some ex =>
           if negb (String.eqb (http.Value ex) "")
           then set_Token x (http.Value ex)
           else mint mac AddDate Format opts r x
       | None => mint mac AddDate Format opts r x
       end ;;
       if Options.SetHeader opts then
         o <- load x ;;
         on_writer (http.with_header (fun h => http.Add h "X-CSRFToken" (Token o)))
       else ret tt
     else ret tt) σ1.
Proof.
  intros Hs x o σ1. unfold Generate.
  rewrite (bind_run _ _ _ _ _ (eq_refl : new _ _ = Some (_, _))).
  rewrite (bind_run _ _ _ _ _ (eq_refl : MapTo _ _ = Some (_, _))).
  rewrite Hs. unfold set_Id at 1.
  erewrite bind_run by (apply store_run; world; apply lookup_insert_eq).
  world. rewrite insert_insert_eq. reflexivity.
Qed.

Lemma Generate_not_issuing opts s r σ uid :
  sessions.Get s (Options.SessionKey opts) = Some (sessions.VString uid) ->
  String.eqb (http.Method r) "GET"
    && String.eqb (http.Get (http.Header r) "X-API-Key") "" = false ->
  Generate mac AddDate Format opts s r σ
  = Some (tt, generated σ {| Token := ""; Id := uid; Secret := Options.Secret opts |}
                (writer σ) 0).
Proof.
  intros Hs Hc. rewrite (Generate_subject _ _ _ _ _ Hs). now rewrite Hc.
Qed.

Lemma send_header_run opts x o σ :
  heap σ !! x = Some o ->
  (if Options.SetHeader opts then
     o <- load x ;;
     on_writer (http.with_header (fun h => http.Add h "X-CSRFToken" (Token o)))
   else ret tt) σ
  = Some (tt, set_writer (sent_header opts (Token o) (writer σ)) σ).
Proof.
  intros Hx. unfold sent_header. destruct (Options.SetHeader opts).
  - now rewrite (bind_run _ _ _ _ _ (load_run _ _ _ Hx)).
  - now destruct σ.
Qed.

Lemma Generate_reuse opts s r σ uid ex :
  sessions.Get s (Options.SessionKey opts) = Some (sessions.VString uid) ->
  String.eqb (http.Method r) "GET"
    && String.eqb (http.Get (http.Header r) "X-API-Key") "" = true ->
  http.Request_Cookie r "_csrf" = Some ex ->
  http.Value ex <> "" ->
  Generate mac AddDate Format opts s r σ
  = Some (tt, generated σ
                {| Token := http.Value ex; Id := uid; Secret := Options.Secret opts |}
                (sent_header opts (http.Value ex) (writer σ)) 0).
Proof.
  intros Hs Hc Hex Hv. rewrite (Generate_subject _ _ _ _ _ Hs). rewrite Hc, Hex.
  apply String.eqb_neq in Hv. rewrite Hv. simpl negb. cbv iota.
  unfold set_Token at 1.
  erewrite bind_run by (apply store_run; world; apply lookup_insert_eq).
  erewrite send_header_run by (world; apply lookup_insert_eq).
  world. rewrite insert_insert_eq. reflexivity.
Qed.

Lemma Generate_mint opts s r σ uid :
  sessions.Get s (Options.SessionKey opts) = Some (sessions.VString uid) ->
  String.eqb (http.Method r) "GET"
    && String.eqb (http.Get (http.Header r) "X-API-Key") "" = true ->
  (forall ex, http.Request_Cookie r "_csrf" = Some ex -> http.Value ex = "") ->
  let tok := xsrftoken.derive mac (Options.Secret opts) uid "POST" (now_of σ) in
  let o := {| Token := tok; Id := uid; Secret := Options.Secret opts |} in
  Generate mac AddDate Format opts s r σ
  = Some (tt,
      if Options.SetCookie opts then
        generated σ o
          (sent_header opts tok
             (http.SetCookie
                (sent_cookie Format opts (http.Host r) tok
                   (AddDate (now_of (tick σ)) 0 0 1))
                (writer σ))) 2
      else generated σ o (sent_header opts tok (writer σ)) 1).
Proof.
  intros Hs Hc Hex tok o. rewrite (Generate_subject _ _ _ _ _ Hs). rewrite Hc.
  set (x := fresh (dom (heap σ))).
  set (o0 := {| Token := ""; Id := uid; Secret := Options.Secret opts |}).
  set (σ1 := set_mapped (Some x) (set_heap (<[x := o0]> (heap σ)) σ)).
  assert (Hx : heap σ1 !! x = Some o0) by (subst σ1; world; apply lookup_insert_eq).
  assert (Hm : match http.Request_Cookie r "_csrf" with
               | Some ex =>
                   if negb (String.eqb (http.Value ex) "")
                   then set_Token x (http.Value ex)
                   else mint mac AddDate Format opts r x
               | None => mint mac AddDate Format opts r x
               end = mint mac AddDate Format opts r x).
  { destruct (http.Request_Cookie r "_csrf") as [ex|]; [|reflexivity].
    rewrite (Hex ex eq_refl). reflexivity. }
  rewrite Hm.
  rewrite (bind_run _ _ _ _ _ (mint_run opts r x o0 σ1 Hx)).
  destruct (Options.SetCookie opts).
  - erewrite send_header_run by (world; apply lookup_insert_eq).
    subst σ1. world. rewrite insert_insert_eq. reflexivity.
  - erewrite send_header_run by (world; apply lookup_insert_eq).
    subst σ1. world. rewrite insert_insert_eq. reflexivity.
Qed.

End GenerateFacts.

(** ** The hostname check *)

Lemma after_literal_no_begin text c R i :
  regexp.ends text (regexp.Concat (regexp.Literal c) (regexp.Concat regexp.BeginText R)) i = [].
Proof.
  cbn [regexp.ends]. unfold regexp.one.
  destruct (text !! i) as [a|]; [|reflexivity].
  destruct (Ascii.eqb c a); reflexivity.
Qed.

Lemma search_nowhere re text :
  (forall i, regexp.ends text re i = []) -> regexp.search re text = false.
Proof.
  intros H. unfold regexp.search.
  induction (seq 0 (S (length text))) as [|i l IH]; [reflexivity|].
  cbn [existsb]. unfold regexp.matches_at at 1. now rewrite H, IH.
Qed.

Lemma domainReg_compiled :
  exists R, regexp.Compile domainReg
            = Some (regexp.Concat (regexp.Literal "/") (regexp.Concat regexp.BeginText R)).
Proof. eexists. vm_compute. reflexivity. Qed.

Lemma domainReg_never_matches host : regexp.Match domainReg host = (false, None).
Proof.
  unfold regexp.Match. destruct domainReg_compiled as [R ->].
  now rewrite search_nowhere by (intros i; apply after_literal_no_begin).
Qed.

Lemma checked_domain_empty host : checked_domain host = "".
Proof. unfold checked_domain. now rewrite domainReg_never_matches. Qed.

Lemma sent_header_cookies opts tok w :
  http.WCookies (sent_header opts tok w) = http.WCookies w.
Proof. unfold sent_header. now destruct (Options.SetHeader opts). Qed.

Lemma sent_header_status opts tok w :
  http.Status (sent_header opts tok w) = http.Status w /\
  http.Body (sent_header opts tok w) = http.Body w.
Proof. unfold sent_header. now destruct (Options.SetHeader opts). Qed.

Section GenerateTotal.

Variable mac : string -> string -> string -> Z -> string.
Variable AddDate : Time -> Z -> Z -> Z -> Time.
Variable Format : Time -> string -> string.

(** Every run of [Generate] ends, without a panic, in a world of the shape
    [generated]; the context holds the configured secret, and at most one
    cookie, the one of [sent_cookie], is added. *)
Lemma Generate_total opts s r σ :
  exists o w n cs,
    Generate mac AddDate Format opts s r σ = Some (tt, generated σ o w n) /\
    Secret o = Options.Secret opts /\
    http.WCookies w = (http.WCookies (writer σ) ++ cs)%list /\
    (cs = [] \/
     cs = [sent_cookie Format opts (http.Host r) (Token o)
             (AddDate (now_of (tick σ)) 0 0 1)]).
Proof.
  destruct (sessions.Get s (Options.SessionKey opts)) as [v|] eqn:Hs.
  2:{ eexists _, _, _, []. rewrite Generate_no_subject by (intros uid; congruence).
      rewrite app_nil_r. auto. }
  destruct v as [uid|n|b|b];
    try (eexists _, _, _, []; rewrite Generate_no_subject by (intros uid; congruence);
         rewrite app_nil_r; now auto).
  destruct (String.eqb (http.Method r) "GET"
            && String.eqb (http.Get (http.Header r) "X-API-Key") "") eqn:Hc.
  2:{ eexists _, _, _, []. rewrite (Generate_not_issuing _ _ _ _ _ _ _ _ Hs Hc).
      rewrite app_nil_r. auto. }
  destruct (http.Request_Cookie r "_csrf") as [ex|] eqn:Hex.
  - destruct (String.eqb_spec (http.Value ex) "") as [Hv|Hv].
    + assert (Hno : forall ex', http.Request_Cookie r "_csrf" = Some ex' ->
                                http.Value ex' = "") by (intros ex'; congruence).
      rewrite (Generate_mint _ _ _ _ _ _ _ _ Hs Hc Hno).
      destruct (Options.SetCookie opts).
      * eexists _, _, _, [_]. split; [reflexivity|].
        rewrite sent_header_cookies. cbn. auto.
      * eexists _, _, _, []. split; [reflexivity|].
        rewrite sent_header_cookies, app_nil_r. auto.
    + eexists _, _, _, []. rewrite (Generate_reuse _ _ _ _ _ _ _ _ _ Hs Hc Hex Hv).
      rewrite sent_header_cookies, app_nil_r. auto.
  - assert (Hno : forall ex', http.Request_Cookie r "_csrf" = Some ex' ->
                              http.Value ex' = "") by (intros ex'; congruence).
    rewrite (Generate_mint _ _ _ _ _ _ _ _ Hs Hc Hno).
    destruct (Options.SetCookie opts).
    * eexists _, _, _, [_]. split; [reflexivity|].
      rewrite sent_header_cookies. cbn. auto.
    * eexists _, _, _, []. split; [reflexivity|].
      rewrite sent_header_cookies, app_nil_r. auto.
Qed.

End GenerateTotal.

(** C9. [domainReg] keeps the slashes of a regular expression literal
    around the anchored expression: it compiles to a literal slash followed
    by the beginning-of-text anchor, which no position after a slash
    satisfies. So the check fails, without error, for every host, and every
    cookie a run of [Generate] adds to the response has an empty Domain. *)
Theorem domain_check_always_fails :
  (exists R, regexp.Compile domainReg
             = Some (regexp.Concat (regexp.Literal "/")
                       (regexp.Concat regexp.BeginText R))) /\
  (forall host, regexp.Match domainReg host = (false, None)) /\
  (forall mac AddDate Format opts s r σ,
      exists σ' cs,
        Generate mac AddDate Format opts s r σ = Some (tt, σ') /\
        http.WCookies (writer σ') = (http.WCookies (writer σ) ++ cs)%list /\
        Forall (fun c => http.Domain c = "") cs).
Proof.
  split; [exact domainReg_compiled | split; [exact domainReg_never_matches|]].
  intros mac AddDate Format opts s r σ.
  destruct (Generate_total mac AddDate Format opts s r σ)
    as (o & w & n & cs & Hrun & _ & Hcs & Hshape).
  exists (generated σ o w n), cs. split; [exact Hrun | split; [exact Hcs|]].
  destruct Hshape as [-> | ->]; [constructor|].
  constructor; [|constructor]. cbn. apply checked_domain_empty.
Qed.

(** ** Validation *)

Section ValidateFacts.

Context {X : Type} `{Csrf X}.

Lemma Validate_header r (x : X) σ b σ' :
  http.Get (http.Header r) "X-CSRFToken" <> "" ->
  ValidToken x (http.Get (http.Header r) "X-CSRFToken") σ = Some (b, σ') ->
  Validate r x σ
  = Some (tt, if b then σ'
              else set_writer (http.Error "Invalid X-CSRFToken" 400 (writer σ')) σ').
Proof.
  intros Hh Hv. unfold Validate. apply String.eqb_neq in Hh. rewrite Hh.
  cbn [negb]. rewrite (bind_run _ _ _ _ _ Hv). now destruct b.
Qed.

Lemma Validate_form r (x : X) σ b σ' :
  http.Get (http.Header r) "X-CSRFToken" = "" ->
  http.FormValue r "_csrf" <> "" ->
  ValidToken x (http.FormValue r "_csrf") σ = Some (b, σ') ->
  Validate r x σ
  = Some (tt, if b then σ'
              else set_writer (http.Error "Invalid _csrf token" 400 (writer σ')) σ').
Proof.
  intros Hh Hf Hv. unfold Validate. rewrite Hh. cbn [String.eqb negb].
  apply String.eqb_neq in Hf. rewrite Hf. cbn [negb].
  rewrite (bind_run _ _ _ _ _ Hv). now destruct b.
Qed.

Lemma Validate_no_token r (x : X) σ :
  http.Get (http.Header r) "X-CSRFToken" = "" ->
  http.FormValue r "_csrf" = "" ->
  Validate r x σ = Some (tt, set_writer (http.Error "Bad Request" 400 (writer σ)) σ).
Proof. intros Hh Hf. unfold Validate. now rewrite Hh, Hf. Qed.

Lemma Validate_header_only r r' (x : X) σ :
  http.Get (http.Header r) "X-CSRFToken" <> "" ->
  http.Header r' = http.Header r ->
  Validate r' x σ = Validate r x σ.
Proof.
  intros Hh E. unfold Validate. rewrite E. apply String.eqb_neq in Hh.
  now rewrite Hh.
Qed.

End ValidateFacts.

Lemma Error_reply msg code w :
  http.Status w = None ->
  http.Status (http.Error msg code w) = Some code /\
  http.Body (http.Error msg code w) = (http.Body w ++ [msg])%list /\
  http.Written (http.Error msg code w) = true /\
  http.WCookies (http.Error msg code w) = http.WCookies w.
Proof.
  intros Hs. unfold http.Error, http.Fprintln, http.WriteHeader, http.with_header, http.Written.
  cbn. now rewrite Hs.
Qed.

(** C2. [Validate] is the state machine of the validation policy, for any
    implementation of [Csrf]. A non-empty X-CSRFToken header is the only
    thing checked, whatever the form holds: if [ValidToken] accepts it,
    [Validate] writes nothing, so the chain goes on, and if not the reply
    is 400 with the line [Invalid X-CSRFToken]. With no such header a
    non-empty _csrf form field is checked the same way, the line being
    [Invalid _csrf token]. With neither the reply is 400 with the line
    [Bad Request]. *)
Theorem Validate_state_machine {X : Type} `{Csrf X} (r : http.Request) (x : X) (σ : World) :
  let header := http.Get (http.Header r) "X-CSRFToken" in
  let field := http.FormValue r "_csrf" in
  (header <> "" ->
     (forall σ', ValidToken x header σ = Some (true, σ') ->
                 Validate r x σ = Some (tt, σ')) /\
     (forall σ', ValidToken x header σ = Some (false, σ') ->
                 Validate r x σ
                 = Some (tt, set_writer (http.Error "Invalid X-CSRFToken" 400 (writer σ')) σ')) /\
     (forall r', http.Header r' = http.Header r -> Validate r' x σ = Validate r x σ)) /\
  (header = "" -> field <> "" ->
     (forall σ', ValidToken x field σ = Some (true, σ') ->
                 Validate r x σ = Some (tt, σ')) /\
     (forall σ', ValidToken x field σ = Some (false, σ') ->
                 Validate r x σ
                 = Some (tt, set_writer (http.Error "Invalid _csrf token" 400 (writer σ')) σ'))) /\
  (header = "" -> field = "" ->
     Validate r x σ = Some (tt, set_writer (http.Error "Bad Request" 400 (writer σ)) σ)) /\
  (forall msg w,
     http.Status w = None ->
     http.Status (http.Error msg 400 w) = Some 400 /\
     http.Body (http.Error msg 400 w) = (http.Body w ++ [msg])%list /\
     http.Written (http.Error msg 400 w) = true).
Proof.
  intros header field. split; [|split; [|split]].
  - intros Hh. split; [|split].
    + intros σ' Hv. now rewrite (Validate_header r x σ true σ').
    + intros σ' Hv. now rewrite (Validate_header r x σ false σ').
    + intros r' E. now apply Validate_header_only.
  - intros Hh Hf. split.
    + intros σ' Hv. now rewrite (Validate_form r x σ true σ').
    + intros σ' Hv. now rewrite (Validate_form r x σ false σ').
  - intros Hh Hf. now apply Validate_no_token.
  - intros msg w Hs. destruct (Error_reply msg 400 w Hs) as (? & ? & ? & _). auto.
Qed.

Lemma Validate_state_machine_witness :
  Validate (H := csrf_Csrf sample.mac) (sample.post_with_header sample.token) 0%nat
    sample.serving = Some (tt, tick sample.serving) /\
  Validate (H := csrf_Csrf sample.mac) (sample.post_with_header "garbage") 0%nat
    sample.serving
  = Some (tt, set_writer (http.Error "Invalid X-CSRFToken" 400 (writer (tick sample.serving)))
                (tick sample.serving)) /\
  Validate (H := csrf_Csrf sample.mac) (sample.post_with_field sample.token) 0%nat
    sample.serving = Some (tt, tick sample.serving) /\
  Validate (H := csrf_Csrf sample.mac) (sample.post_with_field "garbage") 0%nat
    sample.serving
  = Some (tt, set_writer (http.Error "Invalid _csrf token" 400 (writer (tick sample.serving)))
                (tick sample.serving)) /\
  Validate (H := csrf_Csrf sample.mac) sample.post_bare 0%nat sample.serving
  = Some (tt, set_writer (http.Error "Bad Request" 400 (writer sample.serving))
                sample.serving) /\
  http.Status (http.Error "Bad Request" 400 http.blank) = Some 400 /\
  http.Body (http.Error "Bad Request" 400 http.blank) = ["Bad Request"].
Proof.
  split; [|split; [|split; [|split; [|split]]]].
  - destruct (Validate_state_machine (H := csrf_Csrf sample.mac)
                (sample.post_with_header sample.token) 0%nat sample.serving)
      as (Hh & _).
    destruct Hh as (Hok & _ & _); [vm_compute; discriminate|].
    apply Hok. vm_compute. reflexivity.
  - destruct (Validate_state_machine (H := csrf_Csrf sample.mac)
                (sample.post_with_header "garbage") 0%nat sample.serving)
      as (Hh & _).
    destruct Hh as (_ & Hbad & _); [vm_compute; discriminate|].
    apply Hbad. vm_compute. reflexivity.
  - destruct (Validate_state_machine (H := csrf_Csrf sample.mac)
                (sample.post_with_field sample.token) 0%nat sample.serving)
      as (_ & Hf & _).
    destruct Hf as (Hok & _); [vm_compute; reflexivity | vm_compute; discriminate|].
    apply Hok. vm_compute. reflexivity.
  - destruct (Validate_state_machine (H := csrf_Csrf sample.mac)
                (sample.post_with_field "garbage") 0%nat sample.serving)
      as (_ & Hf & _).
    destruct Hf as (_ & Hbad); [vm_compute; reflexivity | vm_compute; discriminate|].
    apply Hbad. vm_compute. reflexivity.
  - destruct (Validate_state_machine (H := csrf_Csrf sample.mac)
                sample.post_bare 0%nat sample.serving)
      as (_ & _ & Hn & _).
    apply Hn; vm_compute; reflexivity.
  - destruct (Validate_state_machine (H := csrf_Csrf sample.mac)
                sample.post_bare 0%nat sample.serving)
      as (_ & _ & _ & He).
    destruct (He "Bad Request" http.blank eq_refl) as (Hst & Hb & _).
    split; [exact Hst | exact Hb].
Defined.

(** ** Issuance *)

Lemma Split_host_port h p :
  ~ strings.occurs ":" h ->
  exists ps, strings.Split (h +:+ String ":" p) ":" = h :: ps.
Proof.
  unfold strings.occurs. induction h as [|a h IH]; intros Hno.
  - cbn. eauto.
  - simpl. simpl in Hno.
    destruct (Ascii.eqb_spec a ":") as [->|_]; [tauto|].
    destruct IH as [ps ->]; [tauto|]. eauto.
Qed.

Lemma Split_no_port h :
  ~ strings.occurs ":" h -> strings.Split h ":" = [h].
Proof.
  unfold strings.occurs. induction h as [|a h IH]; intros Hno.
  - reflexivity.
  - simpl. simpl in Hno.
    destruct (Ascii.eqb_spec a ":") as [->|_]; [tauto|].
    rewrite IH by tauto. reflexivity.
Qed.

Lemma strip_port_spec h :
  ~ strings.occurs ":" h ->
  strip_port h = h /\ forall p, strip_port (h +:+ String ":" p) = h.
Proof.
  intros Hno. unfold strip_port. split.
  - now rewrite Split_no_port.
  - intros p. now destruct (Split_host_port h p Hno) as [ps ->].
Qed.

Lemma generated_lookup σ o w n :
  mapped (generated σ o w n) = Some (fresh (dom (heap σ))) /\
  heap (generated σ o w n) !! fresh (dom (heap σ)) = Some o /\
  context_of (generated σ o w n) = Some o /\
  writer (generated σ o w n) = w.
Proof.
  unfold context_of, generated. world. rewrite lookup_insert_eq. auto.
Qed.

Lemma derive_nonempty mac s u a t : xsrftoken.derive mac s u a t <> "".
Proof. unfold xsrftoken.derive. now destruct (mac s u a t). Qed.

Lemma not_GET_not_issuing (r : http.Request) :
  http.Method r <> "GET" ->
  String.eqb (http.Method r) "GET"
    && String.eqb (http.Get (http.Header r) "X-API-Key") "" = false.
Proof. intros H. apply String.eqb_neq in H. now rewrite H. Qed.

Lemma api_key_not_issuing (r : http.Request) :
  http.Get (http.Header r) "X-API-Key" <> "" ->
  String.eqb (http.Method r) "GET"
    && String.eqb (http.Get (http.Header r) "X-API-Key") "" = false.
Proof. intros H. apply String.eqb_neq in H. rewrite H. apply andb_false_r. Qed.

Lemma issuing (r : http.Request) :
  http.Method r = "GET" ->
  http.Get (http.Header r) "X-API-Key" = "" ->
  String.eqb (http.Method r) "GET"
    && String.eqb (http.Get (http.Header r) "X-API-Key") "" = true.
Proof. intros -> ->. reflexivity. Qed.

(** C6. On a GET request with a non-empty X-API-Key header [Generate]
    leaves the response writer as it found it, whatever the options: no
    cookie is set and no header is added. *)
Theorem api_key_suppresses_delivery
    (mac : string -> string -> string -> Z -> string)
    (AddDate : Time -> Z -> Z -> Z -> Time) (Format : Time -> string -> string)
    opts s r σ :
  http.Method r = "GET" ->
  http.Get (http.Header r) "X-API-Key" <> "" ->
  exists σ',
    Generate mac AddDate Format opts s r σ = Some (tt, σ') /\
    writer σ' = writer σ /\
    http.WCookies (writer σ') = http.WCookies (writer σ) /\
    http.Get (http.WHeader (writer σ')) "X-CSRFToken"
    = http.Get (http.WHeader (writer σ)) "X-CSRFToken".
Proof.
  intros _ Hkey. apply api_key_not_issuing in Hkey.
  destruct (sessions.Get s (Options.SessionKey opts)) as [v|] eqn:Hs.
  - destruct v as [uid|n|b|b].
    + eexists. rewrite (Generate_not_issuing _ _ _ _ _ _ _ _ Hs Hkey). unfold generated; world. auto.
    + eexists. rewrite Generate_no_subject by (intros uid; congruence).
      unfold generated; world. auto.
    + eexists. rewrite Generate_no_subject by (intros uid; congruence).
      unfold generated; world. auto.
    + eexists. rewrite Generate_no_subject by (intros uid; congruence).
      unfold generated; world. auto.
  - eexists. rewrite Generate_no_subject by (intros uid; congruence).
    unfold generated; world. auto.
Qed.

Lemma api_key_suppresses_delivery_witness :
  exists σ',
    Generate sample.mac sample.AddDate sample.Format sample.opts sample.session
      sample.get_with_api_key sample.start = Some (tt, σ') /\
    writer σ' = http.blank /\
    http.WCookies (writer σ') = [] /\
    http.Get (http.WHeader (writer σ')) "X-CSRFToken" = "".
Proof.
  apply (api_key_suppresses_delivery sample.mac sample.AddDate sample.Format
           sample.opts sample.session sample.get_with_api_key sample.start).
  - reflexivity.
  - vm_compute. discriminate.
Defined.

(** C7. For every request [Generate] runs to the end, allocates a new
    context holding the configured secret and maps it to [Csrf]. When the
    session has no value under the session key, or one that is not a
    string, the context's id and token stay empty, [GetToken] returns the
    empty string and the response writer is untouched. *)
Theorem context_always_mapped
    (mac : string -> string -> string -> Z -> string)
    (AddDate : Time -> Z -> Z -> Z -> Time) (Format : Time -> string -> string)
    opts s r σ :
  exists σ' x o,
    Generate mac AddDate Format opts s r σ = Some (tt, σ') /\
    heap σ !! x = None /\
    mapped σ' = Some x /\
    heap σ' !! x = Some o /\
    Secret o = Options.Secret opts /\
    ((forall uid, sessions.Get s (Options.SessionKey opts) <> Some (sessions.VString uid)) ->
     Id o = "" /\ Token o = "" /\
     csrf_GetToken x σ' = Some ("", σ') /\
     writer σ' = writer σ).
Proof.
  destruct (sessions.Get s (Options.SessionKey opts)) as [[uid|k|k|k]|] eqn:Hs.
  1:{ destruct (Generate_total mac AddDate Format opts s r σ)
        as (o & w & n & cs & Hrun & Hsec & _ & _).
      destruct (generated_lookup σ o w n) as (Hm & Hx & _ & _).
      exists (generated σ o w n), (fresh (dom (heap σ))), o.
      split; [exact Hrun|]. split; [apply fresh_unused|].
      split; [exact Hm|]. split; [exact Hx|]. split; [exact Hsec|].
      intros Hno. now destruct (Hno uid). }
  all: set (o := {| Token := ""; Id := ""; Secret := Options.Secret opts |});
    destruct (generated_lookup σ o (writer σ) 0) as (Hm & Hx & _ & Hw);
    exists (generated σ o (writer σ) 0), (fresh (dom (heap σ))), o;
    (split; [apply Generate_no_subject; intros uid; rewrite Hs; discriminate|]);
    (split; [apply fresh_unused|]);
    (split; [exact Hm|]); (split; [exact Hx|]); (split; [reflexivity|]);
    intros _; (split; [reflexivity|]); (split; [reflexivity|]);
    (split; [exact (GetToken_run _ _ _ Hx) | exact Hw]).
Qed.

Lemma context_always_mapped_witness :
  exists σ' x o,
    Generate sample.mac sample.AddDate sample.Format sample.opts ∅
      sample.get_page sample.start = Some (tt, σ') /\
    mapped σ' = Some x /\
    heap σ' !! x = Some o /\
    Secret o = "token123" /\
    Id o = "" /\ Token o = "" /\
    csrf_GetToken x σ' = Some ("", σ') /\
    writer σ' = http.blank.
Proof.
  destruct (context_always_mapped sample.mac sample.AddDate sample.Format sample.opts ∅
              sample.get_page sample.start)
    as (σ' & x & o & Hrun & _ & Hm & Hx & Hs & Hno).
  destruct Hno as (Hid & Htok & Hget & Hw); [intros uid; vm_compute; discriminate|].
  exists σ', x, o. repeat split; assumption.
Defined.

(** C10. On a request whose method is not GET, with a string subject id in
    the session, [Generate] leaves a context holding the configured secret
    and that id and an empty token, so [GetToken] returns the empty string;
    the response writer is untouched. The context still validates: it
    accepts a token derived for that secret and id within the validity
    window, and [Validate] lets a request carrying such a token in its
    X-CSRFToken header pass without writing a reply. *)
Theorem non_GET_populates_context_only
    (mac : string -> string -> string -> Z -> string)
    (AddDate : Time -> Z -> Z -> Z -> Time) (Format : Time -> string -> string)
    opts s r σ uid :
  sessions.Get s (Options.SessionKey opts) = Some (sessions.VString uid) ->
  http.Method r <> "GET" ->
  exists σ' x,
    Generate mac AddDate Format opts s r σ = Some (tt, σ') /\
    mapped σ' = Some x /\
    heap σ' !! x = Some {| Token := ""; Id := uid; Secret := Options.Secret opts |} /\
    csrf_GetToken x σ' = Some ("", σ') /\
    writer σ' = writer σ /\
    (forall t,
        xsrftoken.within_window t (now_of σ') = true ->
        csrf_ValidToken mac x (xsrftoken.derive mac (Options.Secret opts) uid "POST" t) σ'
        = Some (true, tick σ')) /\
    (forall t,
        xsrftoken.within_window t (now_of σ') = true ->
        http.Get (http.Header r) "X-CSRFToken"
        = xsrftoken.derive mac (Options.Secret opts) uid "POST" t ->
        Validate (H := csrf_Csrf mac) r x σ' = Some (tt, tick σ')).
Proof.
  intros Hs Hm. apply not_GET_not_issuing in Hm.
  set (o := {| Token := ""; Id := uid; Secret := Options.Secret opts |}).
  destruct (generated_lookup σ o (writer σ) 0) as (Hmap & Hx & _ & Hw).
  exists (generated σ o (writer σ) 0), (fresh (dom (heap σ))).
  split; [exact (Generate_not_issuing mac AddDate Format _ _ _ _ _ Hs Hm)|].
  split; [exact Hmap|]. split; [exact Hx|].
  split; [exact (GetToken_run _ _ _ Hx)|]. split; [exact Hw|].
  assert (Hv : forall t,
             xsrftoken.within_window t (now_of (generated σ o (writer σ) 0)) = true ->
             csrf_ValidToken mac (fresh (dom (heap σ)))
               (xsrftoken.derive mac (Options.Secret opts) uid "POST" t)
               (generated σ o (writer σ) 0)
             = Some (true, tick (generated σ o (writer σ) 0))).
  { intros t Hwin. rewrite (ValidToken_run mac _ _ o _ Hx).
    cbn [Secret Id o]. now rewrite verify_derive. }
  split; [exact Hv|].
  intros t Hwin Hhdr.
  rewrite (Validate_header (H := csrf_Csrf mac) r _ _ true
             (tick (generated σ o (writer σ) 0))).
  - reflexivity.
  - rewrite Hhdr. apply derive_nonempty.
  - rewrite Hhdr. apply Hv, Hwin.
Qed.

Lemma non_GET_populates_context_only_witness :
  exists σ' x,
    Generate sample.mac sample.AddDate sample.Format sample.opts sample.session
      (sample.post_with_header sample.token) sample.start = Some (tt, σ') /\
    mapped σ' = Some x /\
    heap σ' !! x = Some sample.context /\
    csrf_GetToken x σ' = Some ("", σ') /\
    writer σ' = http.blank /\
    csrf_ValidToken sample.mac x sample.token σ' = Some (true, tick σ') /\
    Validate (H := csrf_Csrf sample.mac) (sample.post_with_header sample.token) x σ'
    = Some (tt, tick σ').
Proof.
  destruct (non_GET_populates_context_only sample.mac sample.AddDate sample.Format
              sample.opts sample.session (sample.post_with_header sample.token)
              sample.start "123456")
    as (σ' & x & Hrun & Hm & Hx & Hget & Hw & Hv & Hval).
  - reflexivity.
  - vm_compute. discriminate.
  - exists σ', x.
    assert (Hnow : now_of σ' = now_of sample.start).
    { rewrite (Generate_not_issuing sample.mac sample.AddDate sample.Format
                 sample.opts sample.session (sample.post_with_header sample.token)
                 sample.start "123456" eq_refl eq_refl) in Hrun.
      injection Hrun as <-. reflexivity. }
    repeat split; try assumption.
    + apply (Hv 1699999999000000000). rewrite Hnow. reflexivity.
    + apply (Hval 1699999999000000000); [rewrite Hnow|]; reflexivity.
Defined.

(** [Generate] reads the clock, which is what deriving a token does, only
    on the branch for a GET request without API key, a string subject id
    and no usable _csrf cookie. *)
Lemma Generate_derives_only_when
    (mac : string -> string -> string -> Z -> string)
    (AddDate : Time -> Z -> Z -> Z -> Time) (Format : Time -> string -> string)
    opts s r σ σ' :
  Generate mac AddDate Format opts s r σ = Some (tt, σ') ->
  ticks σ' <> ticks σ ->
  exists uid,
    sessions.Get s (Options.SessionKey opts) = Some (sessions.VString uid) /\
    http.Method r = "GET" /\
    http.Get (http.Header r) "X-API-Key" = "" /\
    (forall ex, http.Request_Cookie r "_csrf" = Some ex -> http.Value ex = "").
Proof.
  intros Hrun Hticks.
  destruct (sessions.Get s (Options.SessionKey opts)) as [[uid|k|k|k]|] eqn:Hs.
  2-5: rewrite Generate_no_subject in Hrun by (intros uid; rewrite Hs; discriminate);
       injection Hrun as <-; now destruct Hticks.
  destruct (String.eqb (http.Method r) "GET"
            && String.eqb (http.Get (http.Header r) "X-API-Key") "") eqn:Hc.
  2:{ rewrite (Generate_not_issuing _ _ _ _ _ _ _ _ Hs Hc) in Hrun.
      injection Hrun as <-. now destruct Hticks. }
  apply andb_true_iff in Hc as [Hm Hk].
  apply String.eqb_eq in Hm, Hk.
  exists uid. split; [reflexivity|]. split; [exact Hm|]. split; [exact Hk|].
  intros ex Hex. destruct (String.eqb_spec (http.Value ex) "") as [Hv|Hv]; [exact Hv|].
  rewrite (Generate_reuse _ _ _ _ _ _ _ _ _ Hs (issuing r Hm Hk) Hex Hv) in Hrun.
  injection Hrun as <-. now destruct Hticks.
Qed.

(** C5. When [Generate] produces a token (a GET request without API key
    for a session with a string subject id and no usable _csrf cookie) and
    the options ask for a cookie, exactly one cookie is added to the
    response: named _csrf, carrying the token, with path "/", expiring one
    day ([AddDate 0 0 1]) after the clock reading taken for it, Secure as
    configured, HttpOnly false, and as Domain the host without its port
    when [domainReg] matches that host, the empty string otherwise. *)
Theorem cookie_carries_minted_token
    (mac : string -> string -> string -> Z -> string)
    (AddDate : Time -> Z -> Z -> Z -> Time) (Format : Time -> string -> string)
    opts s r σ uid :
  sessions.Get s (Options.SessionKey opts) = Some (sessions.VString uid) ->
  http.Method r = "GET" ->
  http.Get (http.Header r) "X-API-Key" = "" ->
  (forall ex, http.Request_Cookie r "_csrf" = Some ex -> http.Value ex = "") ->
  Options.SetCookie opts = true ->
  exists σ' o c,
    Generate mac AddDate Format opts s r σ = Some (tt, σ') /\
    context_of σ' = Some o /\
    Token o = xsrftoken.derive mac (Options.Secret opts) uid "POST" (now_of σ) /\
    http.WCookies (writer σ') = (http.WCookies (writer σ) ++ [c])%list /\
    http.Name c = "_csrf" /\
    http.Value c = Token o /\
    http.Path c = "/" /\
    http.Expires c = AddDate (now_of (tick σ)) 0 0 1 /\
    http.Secure c = Options.Secure opts /\
    http.HttpOnly c = false /\
    (regexp.Match domainReg (strip_port (http.Host r)) = (true, None) ->
     http.Domain c = strip_port (http.Host r)) /\
    (regexp.Match domainReg (strip_port (http.Host r)) <> (true, None) ->
     http.Domain c = "") /\
    (forall h p, ~ strings.occurs ":" h ->
                 (strip_port h = h /\ strip_port (h +:+ String ":" p) = h)).
Proof.
  intros Hs Hget Hkey Hno Hset.
  pose proof (Generate_mint mac AddDate Format opts s r σ uid Hs
                (issuing r Hget Hkey) Hno) as Hrun.
  cbv zeta in Hrun. rewrite Hset in Hrun.
  eexists _, _, _. split; [exact Hrun|].
  split; [apply generated_lookup|].
  split; [reflexivity|].
  split; [erewrite (proj2 (proj2 (proj2 (generated_lookup _ _ _ _))));
          rewrite sent_header_cookies; reflexivity|].
  repeat (split; [reflexivity|]).
  split; [|split].
  - intros Hok. cbn [http.Domain sent_cookie]. unfold checked_domain. now rewrite Hok.
  - intros Hbad. cbn [http.Domain sent_cookie]. unfold checked_domain.
    destruct (regexp.Match domainReg (strip_port (http.Host r))) as [[|] [e|]];
      try reflexivity. now destruct Hbad.
  - intros h p Hh. destruct (strip_port_spec h Hh) as [H1 H2]. auto.
Qed.

Lemma cookie_carries_minted_token_witness :
  exists σ' o c,
    Generate sample.mac sample.AddDate sample.Format sample.opts sample.session
      sample.get_page sample.start = Some (tt, σ') /\
    context_of σ' = Some o /\
    Token o = xsrftoken.derive sample.mac "token123" "123456" "POST" 1700000000000000000 /\
    http.WCookies (writer σ') = [c] /\
    http.Name c = "_csrf" /\
    http.Value c = Token o /\
    http.Path c = "/" /\
    http.Expires c = 1700086401000000000 /\
    http.Secure c = false /\
    http.HttpOnly c = false /\
    http.Domain c = "" /\
    strip_port "example.com:3000" = "example.com".
Proof.
  destruct (cookie_carries_minted_token sample.mac sample.AddDate sample.Format
              sample.opts sample.session sample.get_page sample.start "123456")
    as (σ' & o & c & Hrun & Hctx & Htok & Hck & Hn & Hv & Hp & He & Hs & Hh & _ & Hd & Hsp).
  - reflexivity.
  - reflexivity.
  - reflexivity.
  - intros ex Hex. vm_compute in Hex. discriminate.
  - reflexivity.
  - exists σ', o, c.
    split; [exact Hrun|]. split; [exact Hctx|]. split; [exact Htok|].
    split; [exact Hck|]. split; [exact Hn|]. split; [exact Hv|].
    split; [exact Hp|]. split; [exact He|]. split; [exact Hs|].
    split; [exact Hh|]. split.
    + apply Hd. vm_compute. discriminate.
    + refine (proj2 (Hsp "example.com" "3000" _)).
      vm_compute. intuition discriminate.
Defined.

(** C4 as written, for every GET request with a non-empty _csrf cookie,
    fails: without a subject id in the session [Generate] returns before
    it looks at the cookie, and the token stays empty. Asking for a subject
    id is not enough either: with a non-empty X-API-Key header the cookie is
    not looked at. *)
Lemma reuse_on_every_GET_counterexample :
  ~ (forall (mac : string -> string -> string -> Z -> string)
            (AddDate : Time -> Z -> Z -> Z -> Time) (Format : Time -> string -> string)
            opts s r σ ex,
        http.Method r = "GET" ->
        http.Request_Cookie r "_csrf" = Some ex ->
        http.Value ex <> "" ->
        exists σ' o,
          Generate mac AddDate Format opts s r σ = Some (tt, σ') /\
          context_of σ' = Some o /\
          Token o = http.Value ex) /\
  ~ (forall (mac : string -> string -> string -> Z -> string)
            (AddDate : Time -> Z -> Z -> Z -> Time) (Format : Time -> string -> string)
            opts s r σ ex uid,
        sessions.Get s (Options.SessionKey opts) = Some (sessions.VString uid) ->
        http.Method r = "GET" ->
        http.Request_Cookie r "_csrf" = Some ex ->
        http.Value ex <> "" ->
        exists σ' o,
          Generate mac AddDate Format opts s r σ = Some (tt, σ') /\
          context_of σ' = Some o /\
          Token o = http.Value ex).
Proof.
  split.
  - intros Hall.
    destruct (Hall sample.mac sample.AddDate sample.Format sample.opts ∅
                sample.get_with_cookie sample.start (sample.cookie "_csrf" "abc"))
      as (σ' & o & Hrun & Hctx & Htok); [reflexivity | reflexivity | discriminate |].
    rewrite Generate_no_subject in Hrun by (intros uid; vm_compute; discriminate).
    injection Hrun as Hσ. subst σ'.
    destruct (generated_lookup sample.start
                {| Token := ""; Id := ""; Secret := Options.Secret sample.opts |}
                (writer sample.start) 0) as (_ & _ & Hc & _).
    assert (E : Some o
                = Some {| Token := ""; Id := ""; Secret := Options.Secret sample.opts |})
      by (etransitivity; [symmetry; exact Hctx | exact Hc]).
    injection E as ->. discriminate Htok.
  - intros Hall.
    destruct (Hall sample.mac sample.AddDate sample.Format sample.opts sample.session
                sample.get_with_cookie_and_api_key sample.start
                (sample.cookie "_csrf" "abc") "123456")
      as (σ' & o & Hrun & Hctx & Htok);
      [reflexivity | reflexivity | reflexivity | discriminate |].
    rewrite (Generate_not_issuing sample.mac sample.AddDate sample.Format sample.opts
               sample.session sample.get_with_cookie_and_api_key sample.start "123456"
               eq_refl eq_refl) in Hrun.
    injection Hrun as Hσ. subst σ'.
    destruct (generated_lookup sample.start
                {| Token := ""; Id := "123456"; Secret := Options.Secret sample.opts |}
                (writer sample.start) 0) as (_ & _ & Hc & _).
    assert (E : Some o
                = Some {| Token := ""; Id := "123456"; Secret := Options.Secret sample.opts |})
      by (etransitivity; [symmetry; exact Hctx | exact Hc]).
    injection E as ->. discriminate Htok.
Qed.

(** C4, amended. On a GET request without API key, for a session with a
    string subject id, a non-empty value of the incoming _csrf cookie
    becomes the context's token as it is: whatever the value, valid or not,
    the context ends up with it; the clock is not read, so no token is
    derived; no cookie is set; and the X-CSRFToken response header, when
    configured, carries that same value. *)
Theorem reuse_cookie_token
    (mac : string -> string -> string -> Z -> string)
    (AddDate : Time -> Z -> Z -> Z -> Time) (Format : Time -> string -> string)
    opts s r σ uid ex :
  sessions.Get s (Options.SessionKey opts) = Some (sessions.VString uid) ->
  http.Method r = "GET" ->
  http.Get (http.Header r) "X-API-Key" = "" ->
  http.Request_Cookie r "_csrf" = Some ex ->
  http.Value ex <> "" ->
  exists σ',
    Generate mac AddDate Format opts s r σ = Some (tt, σ') /\
    context_of σ'
    = Some {| Token := http.Value ex; Id := uid; Secret := Options.Secret opts |} /\
    ticks σ' = ticks σ /\
    http.WCookies (writer σ') = http.WCookies (writer σ) /\
    writer σ' = sent_header opts (http.Value ex) (writer σ).
Proof.
  intros Hs Hget Hkey Hex Hv.
  eexists. split.
  - exact (Generate_reuse mac AddDate Format opts s r σ uid ex Hs
             (issuing r Hget Hkey) Hex Hv).
  - split; [apply generated_lookup|]. split; [reflexivity|].
    split; [|apply generated_lookup].
    erewrite (proj2 (proj2 (proj2 (generated_lookup _ _ _ _)))).
    apply sent_header_cookies.
Qed.

Lemma reuse_cookie_token_witness :
  exists σ',
    Generate sample.mac sample.AddDate sample.Format sample.opts sample.session
      sample.get_with_cookie sample.start = Some (tt, σ') /\
    context_of σ' = Some {| Token := "abc"; Id := "123456"; Secret := "token123" |} /\
    ticks σ' = 0%nat /\
    http.WCookies (writer σ') = [] /\
    http.Get (http.WHeader (writer σ')) "X-CSRFToken" = "abc" /\
    csrf_ValidToken sample.mac 0%nat "abc" sample.serving
    = Some (false, tick sample.serving).
Proof.
  destruct (reuse_cookie_token sample.mac sample.AddDate sample.Format sample.opts
              sample.session sample.get_with_cookie sample.start "123456"
              (sample.cookie "_csrf" "abc"))
    as (σ' & Hrun & Hctx & Ht & Hck & Hw).
  - reflexivity.
  - reflexivity.
  - reflexivity.
  - reflexivity.
  - discriminate.
  - exists σ'. split; [exact Hrun|]. split; [exact Hctx|]. split; [exact Ht|].
    split; [exact Hck|]. split.
    + rewrite Hw. vm_compute. reflexivity.
    + vm_compute. reflexivity.
Defined.

(** ** Further properties of issuance *)

Lemma sent_header_values opts tok w :
  header_values (http.WHeader (sent_header opts tok w)) "X-CSRFToken"
  = (header_values (http.WHeader w) "X-CSRFToken"
     ++ if Options.SetHeader opts then [tok] else [])%list.
Proof.
  unfold sent_header, header_values. destruct (Options.SetHeader opts).
  - cbn [http.WHeader http.with_header]. unfold http.Add, http.MIMEHeader.
    cbv zeta. now rewrite lookup_insert_eq.
  - now rewrite app_nil_r.
Qed.

Lemma sent_header_other opts tok w k :
  k <> http.CanonicalMIMEHeaderKey "X-CSRFToken" ->
  (http.WHeader (sent_header opts tok w) : gmap string (list string)) !! k
  = (http.WHeader w : gmap string (list string)) !! k.
Proof.
  intros Hk. unfold sent_header. destruct (Options.SetHeader opts); [|reflexivity].
  cbn [http.WHeader http.with_header]. unfold http.Add, http.MIMEHeader.
  cbv zeta. now rewrite lookup_insert_ne by congruence.
Qed.

Section GenerateShape.

Variable mac : string -> string -> string -> Z -> string.
Variable AddDate : Time -> Z -> Z -> Z -> Time.
Variable Format : Time -> string -> string.

(** Every run of [Generate], seen from the response writer: nothing is
    done to it, or the header is sent, or the cookie and then the header. *)
Lemma Generate_shape opts s r σ :
  exists o w n,
    Generate mac AddDate Format opts s r σ = Some (tt, generated σ o w n) /\
    Secret o = Options.Secret opts /\
    Id o = subject_of opts s /\
    (w = writer σ \/
     w = sent_header opts (Token o) (writer σ) \/
     (Options.SetCookie opts = true /\
      w = sent_header opts (Token o)
            (http.SetCookie
               (sent_cookie Format opts (http.Host r) (Token o)
                  (AddDate (now_of (tick σ)) 0 0 1))
               (writer σ)))).
Proof.
  unfold subject_of.
  destruct (sessions.Get s (Options.SessionKey opts)) as [[uid|k|k|k]|] eqn:Hs.
  2-5: eexists _, _, _;
       (split; [apply Generate_no_subject; intros uid; rewrite Hs; discriminate|]);
       (split; [reflexivity|]); (split; [reflexivity|]); left; reflexivity.
  destruct (String.eqb (http.Method r) "GET"
            && String.eqb (http.Get (http.Header r) "X-API-Key") "") eqn:Hc.
  2:{ eexists _, _, _. split; [exact (Generate_not_issuing _ _ _ _ _ _ _ _ Hs Hc)|].
      split; [reflexivity|]. split; [reflexivity|]. left; reflexivity. }
  assert (Hmint :
    (forall ex, http.Request_Cookie r "_csrf" = Some ex -> http.Value ex = "") ->
    exists o w n,
      Generate mac AddDate Format opts s r σ = Some (tt, generated σ o w n) /\
      Secret o = Options.Secret opts /\ Id o = uid /\
      (w = writer σ \/
       w = sent_header opts (Token o) (writer σ) \/
       (Options.SetCookie opts = true /\
        w = sent_header opts (Token o)
              (http.SetCookie
                 (sent_cookie Format opts (http.Host r) (Token o)
                    (AddDate (now_of (tick σ)) 0 0 1))
                 (writer σ))))).
  { intros Hno. pose proof (Generate_mint mac AddDate Format _ _ _ σ _ Hs Hc Hno) as H.
    cbv zeta in H. destruct (Options.SetCookie opts) eqn:Hset.
    - eexists _, _, _. split; [exact H|].
      split; [reflexivity|]. split; [reflexivity|].
      right; right. split; reflexivity.
    - eexists _, _, _. split; [exact H|].
      split; [reflexivity|]. split; [reflexivity|]. right; left; reflexivity. }
  destruct (http.Request_Cookie r "_csrf") as [ex|] eqn:Hex.
  - destruct (String.eqb_spec (http.Value ex) "") as [Hv|Hv].
    + apply Hmint. intros ex' [= <-]. exact Hv.
    + eexists _, _, _.
      split; [exact (Generate_reuse _ _ _ _ _ _ _ _ _ Hs Hc Hex Hv)|].
      split; [reflexivity|]. split; [reflexivity|]. right; left; reflexivity.
  - apply Hmint. intros ex' [=].
Qed.

End GenerateShape.

(** X1. [Generate] never replies and never disturbs what is already there:
    for every request it ends without panic with the status and the body
    of the response as they were, every response header other than
    X-CSRFToken and Set-Cookie (the lines [http.SetCookie] adds, kept in
    [WCookies]) as it was, every context allocated before still in place,
    and the same clock. *)
Theorem Generate_leaves_reply_open
    (mac : string -> string -> string -> Z -> string)
    (AddDate : Time -> Z -> Z -> Z -> Time) (Format : Time -> string -> string)
    opts s r σ :
  exists σ',
    Generate mac AddDate Format opts s r σ = Some (tt, σ') /\
    http.Status (writer σ') = http.Status (writer σ) /\
    http.Body (writer σ') = http.Body (writer σ) /\
    http.Written (writer σ') = http.Written (writer σ) /\
    (forall k, k <> "X-Csrftoken" -> k <> "Set-Cookie" ->
       (http.WHeader (writer σ') : gmap string (list string)) !! k
       = (http.WHeader (writer σ) : gmap string (list string)) !! k) /\
    (forall x o, heap σ !! x = Some o -> heap σ' !! x = Some o) /\
    clock σ' = clock σ.
Proof.
  destruct (Generate_shape mac AddDate Format opts s r σ)
    as (o & w & n & Hrun & _ & _ & Hw).
  exists (generated σ o w n). split; [exact Hrun|].
  assert (Hst : http.Status w = http.Status (writer σ) /\
                http.Body w = http.Body (writer σ)).
  { destruct Hw as [-> | [-> | [_ ->]]]; [auto | apply sent_header_status |].
    destruct (sent_header_status opts (Token o)
                (http.SetCookie
                   (sent_cookie Format opts (http.Host r) (Token o)
                      (AddDate (now_of (tick σ)) 0 0 1)) (writer σ))) as [-> ->].
    auto. }
  destruct Hst as [Hst Hb].
  split; [exact Hst|]. split; [exact Hb|].
  split; [unfold http.Written; cbn [writer generated]; now rewrite Hst|].
  split; [|split; [|reflexivity]].
  - intros k Hk _. cbn [writer generated].
    destruct Hw as [-> | [-> | [_ ->]]]; [reflexivity | |];
      now rewrite sent_header_other by exact Hk.
  - intros x o' Hx. cbn [heap generated]. rewrite lookup_insert_ne; [exact Hx|].
    intros <-. rewrite fresh_unused in Hx. discriminate.
Qed.

Lemma Generate_leaves_reply_open_witness :
  exists σ',
    Generate sample.mac sample.AddDate sample.Format sample.opts sample.session
      sample.get_page scenario.under_way = Some (tt, σ') /\
    http.Status (writer σ') = None /\
    http.Body (writer σ') = [] /\
    (http.WHeader (writer σ') : gmap string (list string)) !! "Server" = Some ["martini"] /\
    heap σ' !! 0%nat = Some sample.context.
Proof.
  destruct (Generate_leaves_reply_open sample.mac sample.AddDate sample.Format
              sample.opts sample.session sample.get_page scenario.under_way)
    as (σ' & Hrun & Hst & Hb & _ & Hh & Hheap & _).
  exists σ'. split; [exact Hrun|]. split; [exact Hst|]. split; [exact Hb|]. split.
  - rewrite (Hh "Server"); [reflexivity | discriminate | discriminate].
  - apply Hheap. reflexivity.
Defined.

(** X2. What [Generate] sends is the token of the context: the cookies it
    adds (at most one, none unless [SetCookie]) are named _csrf and carry
    the token [GetToken] returns afterwards, and so do the values it adds
    under X-CSRFToken (at most one, none unless [SetHeader]); cookies and
    header values already set stay in front of them. *)
Theorem Generate_delivers_context_token
    (mac : string -> string -> string -> Z -> string)
    (AddDate : Time -> Z -> Z -> Z -> Time) (Format : Time -> string -> string)
    opts s r σ :
  exists σ' x tok cs hs,
    Generate mac AddDate Format opts s r σ = Some (tt, σ') /\
    mapped σ' = Some x /\
    csrf_GetToken x σ' = Some (tok, σ') /\
    http.WCookies (writer σ') = (http.WCookies (writer σ) ++ cs)%list /\
    header_values (http.WHeader (writer σ')) "X-CSRFToken"
    = (header_values (http.WHeader (writer σ)) "X-CSRFToken" ++ hs)%list /\
    Forall (fun c => http.Name c = "_csrf" /\ http.Value c = tok) cs /\
    Forall (fun h => h = tok) hs /\
    (length cs <= 1)%nat /\ (length hs <= 1)%nat /\
    (Options.SetCookie opts = false -> cs = []) /\
    (Options.SetHeader opts = false -> hs = []).
Proof.
  destruct (Generate_shape mac AddDate Format opts s r σ)
    as (o & w & n & Hrun & _ & _ & Hw).
  destruct (generated_lookup σ o w n) as (Hm & Hx & _ & Hwr).
  destruct Hw as [-> | [-> | [Hset ->]]].
  - exists (generated σ o (writer σ) n), (fresh (dom (heap σ))), (Token o), [], [].
    split; [exact Hrun|]. split; [exact Hm|]. split; [exact (GetToken_run _ _ _ Hx)|].
    rewrite Hwr, !app_nil_r. repeat (split; [auto|]). auto.
  - exists (generated σ o (sent_header opts (Token o) (writer σ)) n),
      (fresh (dom (heap σ))), (Token o), [],
      (if Options.SetHeader opts then [Token o] else []).
    split; [exact Hrun|]. split; [exact Hm|]. split; [exact (GetToken_run _ _ _ Hx)|].
    rewrite Hwr, sent_header_cookies, sent_header_values, app_nil_r.
    split; [reflexivity|]. split; [reflexivity|]. split; [constructor|].
    split; [destruct (Options.SetHeader opts); repeat constructor|].
    split; [cbn; lia|].
    split; [destruct (Options.SetHeader opts); cbn; lia|].
    split; [reflexivity|]. now intros ->.
  - eexists _, (fresh (dom (heap σ))), (Token o),
      [sent_cookie Format opts (http.Host r) (Token o) (AddDate (now_of (tick σ)) 0 0 1)],
      (if Options.SetHeader opts then [Token o] else []).
    split; [exact Hrun|]. split; [exact Hm|]. split; [exact (GetToken_run _ _ _ Hx)|].
    rewrite Hwr, sent_header_cookies, sent_header_values.
    split; [reflexivity|]. split; [reflexivity|].
    split; [repeat constructor|].
    split; [destruct (Options.SetHeader opts); repeat constructor|].
    split; [cbn; lia|].
    split; [destruct (Options.SetHeader opts); cbn; lia|].
    split; [intros E; rewrite Hset in E; discriminate|]. now intros ->.
Qed.

Lemma Generate_delivers_context_token_witness :
  exists σ' x tok cs hs,
    Generate sample.mac sample.AddDate sample.Format scenario.header_only
      sample.session sample.get_page scenario.under_way = Some (tt, σ') /\
    mapped σ' = Some x /\
    csrf_GetToken x σ' = Some (tok, σ') /\
    http.WCookies (writer σ') = (sample.cookie "my_session" "opaque" :: cs)%list /\
    header_values (http.WHeader (writer σ')) "X-CSRFToken" = ("earlier" :: hs)%list /\
    Forall (fun h => h = tok) hs /\
    cs = [].
Proof.
  destruct (Generate_delivers_context_token sample.mac sample.AddDate sample.Format
              scenario.header_only sample.session sample.get_page scenario.under_way)
    as (σ' & x & tok & cs & hs & Hrun & Hm & Hget & Hck & Hhd & _ & Hhs & _ & _ & Hno & _).
  exists σ', x, tok, cs, hs.
  split; [exact Hrun|]. split; [exact Hm|]. split; [exact Hget|].
  split; [exact Hck|]. split; [exact Hhd|]. split; [exact Hhs|].
  apply Hno. reflexivity.
Defined.

(** X3. Whatever branch [Generate] takes, the context it maps validates
    against the configured secret, the session's string subject id (the
    empty string when the session has none) and the action POST:
    [ValidToken] on it is [xsrftoken.Valid] with exactly these arguments. *)
Theorem Generate_binds_validation
    (mac : string -> string -> string -> Z -> string)
    (AddDate : Time -> Z -> Z -> Z -> Time) (Format : Time -> string -> string)
    opts s r σ :
  exists σ' x,
    Generate mac AddDate Format opts s r σ = Some (tt, σ') /\
    mapped σ' = Some x /\
    forall cand,
      csrf_ValidToken mac x cand σ'
      = xsrftoken.Valid mac cand (Options.Secret opts) (subject_of opts s) "POST" σ'.
Proof.
  destruct (Generate_shape mac AddDate Format opts s r σ)
    as (o & w & n & Hrun & Hsec & Hid & _).
  destruct (generated_lookup σ o w n) as (Hm & Hx & _ & _).
  exists (generated σ o w n), (fresh (dom (heap σ))).
  split; [exact Hrun|]. split; [exact Hm|].
  intros cand. unfold csrf_ValidToken.
  rewrite (bind_run _ _ _ _ _ (load_run _ _ _ Hx)). now rewrite Hsec, Hid.
Qed.

(** X4. [Generate] asks for a new token exactly on a GET request without
    API key, for a session with a string subject id, whose first _csrf
    cookie is missing or empty. Then the context's token is the one derived
    at the first clock reading, and the clock is read once more only for
    the cookie's expiry. In every other case the clock is not read, and
    the token is empty or the value of the incoming cookie. *)
Theorem Generate_derives_iff
    (mac : string -> string -> string -> Z -> string)
    (AddDate : Time -> Z -> Z -> Z -> Time) (Format : Time -> string -> string)
    opts s r σ :
  let minting :=
    (exists uid, sessions.Get s (Options.SessionKey opts) = Some (sessions.VString uid)) /\
    http.Method r = "GET" /\
    http.Get (http.Header r) "X-API-Key" = "" /\
    (forall ex, http.Request_Cookie r "_csrf" = Some ex -> http.Value ex = "") in
  exists σ' o,
    Generate mac AddDate Format opts s r σ = Some (tt, σ') /\
    context_of σ' = Some o /\
    (minting ->
       Token o = xsrftoken.derive mac (Options.Secret opts) (subject_of opts s) "POST"
                   (now_of σ) /\
       ticks σ' = ((if Options.SetCookie opts then 2 else 1) + ticks σ)%nat) /\
    (~ minting ->
       ticks σ' = ticks σ /\
       (Token o = "" \/
        exists ex, http.Request_Cookie r "_csrf" = Some ex /\ Token o = http.Value ex)).
Proof.
  intros minting. unfold subject_of.
  destruct (sessions.Get s (Options.SessionKey opts)) as [[uid|k|k|k]|] eqn:Hs.
  2-5: eexists _, _;
       (split; [apply Generate_no_subject; intros uid; rewrite Hs; discriminate|]);
       (split; [apply generated_lookup|]);
       (split; [intros ([uid Hu] & _); discriminate Hu | intros _; split; [reflexivity|]]);
       left; reflexivity.
  destruct (String.eqb (http.Method r) "GET"
            && String.eqb (http.Get (http.Header r) "X-API-Key") "") eqn:Hc.
  2:{ eexists _, _. split; [exact (Generate_not_issuing _ _ _ _ _ _ _ _ Hs Hc)|].
      split; [apply generated_lookup|]. split.
      - intros (_ & Hm & Hk & _). rewrite (issuing r Hm Hk) in Hc. discriminate.
      - intros _. split; [reflexivity|]. left; reflexivity. }
  assert (Hmint :
    (forall ex, http.Request_Cookie r "_csrf" = Some ex -> http.Value ex = "") ->
    exists σ' o,
      Generate mac AddDate Format opts s r σ = Some (tt, σ') /\
      context_of σ' = Some o /\
      (minting ->
         Token o = xsrftoken.derive mac (Options.Secret opts) uid "POST" (now_of σ) /\
         ticks σ' = ((if Options.SetCookie opts then 2 else 1) + ticks σ)%nat) /\
      (~ minting ->
         ticks σ' = ticks σ /\
         (Token o = "" \/
          exists ex, http.Request_Cookie r "_csrf" = Some ex /\ Token o = http.Value ex))).
  { intros Hno. pose proof (Generate_mint mac AddDate Format _ _ _ σ _ Hs Hc Hno) as H.
    cbv zeta in H. apply andb_true_iff in Hc as [Hm Hk].
    apply String.eqb_eq in Hm, Hk.
    assert (Hyes : minting) by (split; [eauto | repeat split; assumption]).
    destruct (Options.SetCookie opts);
      (eexists _, _; split; [exact H|]; split; [apply generated_lookup|];
       split; [intros _; split; reflexivity | intros Hn; now destruct (Hn Hyes)]). }
  destruct (http.Request_Cookie r "_csrf") as [ex|] eqn:Hex.
  - destruct (String.eqb_spec (http.Value ex) "") as [Hv|Hv].
    + apply Hmint. intros ex' [= <-]. exact Hv.
    + eexists _, _.
      split; [exact (Generate_reuse _ _ _ _ _ _ _ _ _ Hs Hc Hex Hv)|].
      split; [apply generated_lookup|]. split.
      * intros (_ & _ & _ & Hall). now destruct (Hv (Hall ex eq_refl)).
      * intros _. split; [reflexivity|]. right. now exists ex.
  - apply Hmint. intros ex' [=].
Qed.

Lemma Generate_derives_iff_witness :
  (exists σ' o,
     Generate sample.mac sample.AddDate sample.Format sample.opts sample.session
       sample.get_page sample.start = Some (tt, σ') /\
     context_of σ' = Some o /\
     Token o = xsrftoken.derive sample.mac "token123" "123456" "POST" 1700000000000000000 /\
     ticks σ' = 2%nat) /\
  (exists σ' o,
     Generate sample.mac sample.AddDate sample.Format sample.opts sample.session
       sample.get_with_cookie sample.start = Some (tt, σ') /\
     context_of σ' = Some o /\
     ticks σ' = 0%nat).
Proof.
  split.
  - destruct (Generate_derives_iff sample.mac sample.AddDate sample.Format sample.opts
                sample.session sample.get_page sample.start)
      as (σ' & o & Hrun & Hctx & Hyes & _).
    destruct Hyes as [Htok Ht].
    { split; [exists "123456"; reflexivity|].
      split; [reflexivity|]. split; [reflexivity|].
      intros ex Hex. vm_compute in Hex. discriminate. }
    exists σ', o. split; [exact Hrun|]. split; [exact Hctx|].
    split; [exact Htok | exact Ht].
  - destruct (Generate_derives_iff sample.mac sample.AddDate sample.Format sample.opts
                sample.session sample.get_with_cookie sample.start)
      as (σ' & o & Hrun & Hctx & _ & Hno).
    destruct Hno as [Ht _].
    { intros (_ & _ & _ & Hall).
      specialize (Hall (sample.cookie "_csrf" "abc") eq_refl). discriminate Hall. }
    exists σ', o. split; [exact Hrun|]. split; [exact Hctx|]. exact Ht.
Defined.

(** X5. The cookie [Generate] sets, field by field: on the branch that
    derives a token, with [SetCookie], exactly one cookie is appended, and
    it is the struct of the source with the token in [Value], in [Raw]
    after "_csrf=" and in [Unparsed] after "token=", no Domain, MaxAge 0,
    and [RawExpires] the expiry printed in the UnixDate layout. *)
Theorem minted_cookie_exact
    (mac : string -> string -> string -> Z -> string)
    (AddDate : Time -> Z -> Z -> Z -> Time) (Format : Time -> string -> string)
    opts s r σ uid :
  sessions.Get s (Options.SessionKey opts) = Some (sessions.VString uid) ->
  http.Method r = "GET" ->
  http.Get (http.Header r) "X-API-Key" = "" ->
  (forall ex, http.Request_Cookie r "_csrf" = Some ex -> http.Value ex = "") ->
  Options.SetCookie opts = true ->
  exists σ',
    Generate mac AddDate Format opts s r σ = Some (tt, σ') /\
    let tok := xsrftoken.derive mac (Options.Secret opts) uid "POST" (now_of σ) in
    let expire := AddDate (now_of (tick σ)) 0 0 1 in
    http.WCookies (writer σ')
    = (http.WCookies (writer σ) ++
       [{| http.Name := "_csrf";
           http.Value := tok;
           http.Path := "/";
           http.Domain := "";
           http.Expires := expire;
           http.RawExpires := Format expire "Mon Jan _2 15:04:05 MST 2006";
           http.MaxAge := 0;
           http.Secure := Options.Secure opts;
           http.HttpOnly := false;
           http.Raw := "_csrf=" +:+ tok;
           http.Unparsed := ["token=" +:+ tok] |}])%list.
Proof.
  intros Hs Hget Hkey Hno Hset.
  pose proof (Generate_mint mac AddDate Format opts s r σ uid Hs
                (issuing r Hget Hkey) Hno) as Hrun.
  cbv zeta in Hrun. rewrite Hset in Hrun.
  eexists. split; [exact Hrun|]. cbv zeta.
  erewrite (proj2 (proj2 (proj2 (generated_lookup _ _ _ _)))).
  rewrite sent_header_cookies. cbn [http.WCookies http.SetCookie].
  unfold sent_cookie. now rewrite checked_domain_empty.
Qed.

Lemma minted_cookie_exact_witness :
  exists σ',
    Generate sample.mac sample.AddDate sample.Format sample.opts sample.session
      sample.get_page sample.start = Some (tt, σ') /\
    http.Raw <$> http.WCookies (writer σ')
    = ["_csrf=" +:+ xsrftoken.derive sample.mac "token123" "123456" "POST"
                      1700000000000000000] /\
    http.Domain <$> http.WCookies (writer σ') = [""].
Proof.
  destruct (minted_cookie_exact sample.mac sample.AddDate sample.Format sample.opts
              sample.session sample.get_page sample.start "123456")
    as (σ' & Hrun & Hck).
  - reflexivity.
  - reflexivity.
  - reflexivity.
  - intros ex Hex. vm_compute in Hex. discriminate.
  - reflexivity.
  - exists σ'. split; [exact Hrun|]. cbv zeta in Hck. rewrite Hck.
    split; reflexivity.
Defined.

(** ** Further properties of validation *)

(** [Validate] on a [*csrf] context, in closed form. *)
Lemma Validate_csrf_run (mac : string -> string -> string -> Z -> string) r c o σ :
  heap σ !! c = Some o ->
  Validate (H := csrf_Csrf mac) r c σ
  = Some (tt,
      if String.eqb (candidate r) "" then
        set_writer (http.Error "Bad Request" 400 (writer σ)) σ
      else if xsrftoken.verify mac (candidate r) (Secret o) (Id o) "POST" (now_of σ)
           then tick σ
           else set_writer (http.Error (rejection r) 400 (writer (tick σ))) (tick σ)).
Proof.
  intros Hc. unfold candidate, rejection.
  destruct (String.eqb_spec (http.Get (http.Header r) "X-CSRFToken") "") as [Hh|Hh].
  - destruct (String.eqb_spec (http.FormValue r "_csrf") "") as [Hf|Hf].
    + now apply Validate_no_token.
    + cbn [negb].
      rewrite (Validate_form (H := csrf_Csrf mac) r c σ _ _ Hh Hf
                 (ValidToken_run mac σ c o _ Hc)).
      now destruct (xsrftoken.verify mac _ _ _ _ _).
  - apply String.eqb_neq in Hh as Hh'. rewrite Hh'. cbn [negb].
    rewrite (Validate_header (H := csrf_Csrf mac) r c σ _ _ Hh
               (ValidToken_run mac σ c o _ Hc)).
    now destruct (xsrftoken.verify mac _ _ _ _ _).
Qed.

Lemma rejection_without_candidate r : candidate r = "" -> rejection r = "Bad Request".
Proof.
  unfold candidate, rejection.
  destruct (String.eqb_spec (http.Get (http.Header r) "X-CSRFToken") "") as [Hh|Hh].
  - intros ->. reflexivity.
  - intros E. now destruct Hh.
Qed.

(** X6. [Validate] with the package's own context decides by one rule: on
    an allocated context and a response not yet written it never panics;
    the request passes, with the response writer untouched, exactly when a
    candidate is present and verifies at the clock reading taken for it;
    otherwise the status is 400 and the one line of the failed branch is
    added to the body. The context, the mapping and the cookies are never
    changed, and the clock is read once, or not at all without candidate. *)
Theorem Validate_decides (mac : string -> string -> string -> Z -> string) r c o σ :
  heap σ !! c = Some o ->
  http.Status (writer σ) = None ->
  exists σ',
    Validate (H := csrf_Csrf mac) r c σ = Some (tt, σ') /\
    heap σ' = heap σ /\
    mapped σ' = mapped σ /\
    http.WCookies (writer σ') = http.WCookies (writer σ) /\
    ticks σ' = (if String.eqb (candidate r) "" then ticks σ else S (ticks σ)) /\
    (if negb (String.eqb (candidate r) "")
        && xsrftoken.verify mac (candidate r) (Secret o) (Id o) "POST" (now_of σ)
     then writer σ' = writer σ
     else http.Status (writer σ') = Some 400 /\
          http.Body (writer σ') = (http.Body (writer σ) ++ [rejection r])%list).
Proof.
  intros Hc Hst. rewrite (Validate_csrf_run mac r c o σ Hc).
  eexists. split; [reflexivity|].
  destruct (String.eqb_spec (candidate r) "") as [Hcand|Hcand].
  - destruct (Error_reply "Bad Request" 400 (writer σ) Hst) as (H1 & H2 & _ & H4).
    rewrite (rejection_without_candidate r Hcand). cbn [negb andb].
    repeat (split; [first [reflexivity | exact H4]|]). split; assumption.
  - cbn [negb andb].
    destruct (xsrftoken.verify mac (candidate r) (Secret o) (Id o) "POST" (now_of σ)).
    + repeat (split; [reflexivity|]). reflexivity.
    + destruct (Error_reply (rejection r) 400 (writer (tick σ)) Hst)
        as (H1 & H2 & _ & H4).
      repeat (split; [first [reflexivity | exact H4]|]). split; assumption.
Qed.

Lemma Validate_decides_witness :
  (exists σ',
     Validate (H := csrf_Csrf sample.mac) (sample.post_with_field sample.token) 0%nat
       sample.serving = Some (tt, σ') /\
     heap σ' = heap sample.serving /\
     ticks σ' = 1%nat /\
     writer σ' = http.blank) /\
  (exists σ',
     Validate (H := csrf_Csrf sample.mac) sample.post_bare 0%nat
       sample.serving = Some (tt, σ') /\
     ticks σ' = 0%nat /\
     http.Status (writer σ') = Some 400 /\
     http.Body (writer σ') = ["Bad Request"]).
Proof.
  split.
  - destruct (Validate_decides sample.mac (sample.post_with_field sample.token) 0%nat
                sample.context sample.serving eq_refl eq_refl)
      as (σ' & Hrun & Hh & _ & _ & Ht & Hw).
    exists σ'. split; [exact Hrun|]. split; [exact Hh|]. split; [exact Ht|]. exact Hw.
  - destruct (Validate_decides sample.mac sample.post_bare 0%nat
                sample.context sample.serving eq_refl eq_refl)
      as (σ' & Hrun & _ & _ & _ & Ht & Hst & Hb).
    exists σ'. split; [exact Hrun|]. split; [exact Ht|]. split; [exact Hst | exact Hb].
Defined.

(** X7. Validation does not use a token up: when the candidate of a
    request verifies at two successive clock readings, validating the
    request twice in a row passes both times and writes nothing. *)
Theorem Validate_does_not_consume
    (mac : string -> string -> string -> Z -> string) r c o σ :
  heap σ !! c = Some o ->
  candidate r <> "" ->
  xsrftoken.verify mac (candidate r) (Secret o) (Id o) "POST" (now_of σ) = true ->
  xsrftoken.verify mac (candidate r) (Secret o) (Id o) "POST" (now_of (tick σ)) = true ->
  (Validate (H := csrf_Csrf mac) r c ;; Validate (H := csrf_Csrf mac) r c) σ
  = Some (tt, tick (tick σ)) /\
  writer (tick (tick σ)) = writer σ.
Proof.
  intros Hc Hcand Hv1 Hv2. split; [|reflexivity].
  apply String.eqb_neq in Hcand.
  erewrite bind_run by (rewrite (Validate_csrf_run mac r c o σ Hc), Hcand, Hv1; reflexivity).
  now rewrite (Validate_csrf_run mac r c o (tick σ) Hc), Hcand, Hv2.
Qed.

Lemma Validate_does_not_consume_witness :
  (Validate (H := csrf_Csrf sample.mac) (sample.post_with_header sample.token) 0%nat ;;
   Validate (H := csrf_Csrf sample.mac) (sample.post_with_header sample.token) 0%nat)
    sample.serving
  = Some (tt, tick (tick sample.serving)) /\
  writer (tick (tick sample.serving)) = http.blank.
Proof.
  apply (Validate_does_not_consume sample.mac (sample.post_with_header sample.token)
           0%nat sample.context sample.serving).
  - reflexivity.
  - vm_compute. discriminate.
  - vm_compute. reflexivity.
  - vm_compute. reflexivity.
Defined.

(** ** Issuance and validation together *)

Lemma Request_Cookie_first r name pre c1 rest :
  http.Cookies r = (pre ++ c1 :: rest)%list ->
  Forall (fun c => http.Name c <> name) pre ->
  http.Name c1 = name ->
  http.Request_Cookie r name = Some c1.
Proof.
  intros Hck Hpre Hname. unfold http.Request_Cookie. rewrite Hck. clear Hck.
  induction Hpre as [|c pre Hc _ IH]; cbn [app find].
  - subst name. now rewrite String.eqb_refl.
  - apply String.eqb_neq in Hc. now rewrite Hc.
Qed.

(** X8. Only the first _csrf cookie of a request counts. On a GET request
    without API key, for a session with a string subject id: if the first
    cookie named _csrf has a value, that value becomes the context's token
    and no token is derived, whatever cookies follow; if its value is empty
    a new token is derived, even when a later _csrf cookie has a value. *)
Theorem first_csrf_cookie_decides
    (mac : string -> string -> string -> Z -> string)
    (AddDate : Time -> Z -> Z -> Z -> Time) (Format : Time -> string -> string)
    opts s r σ uid pre c1 rest :
  sessions.Get s (Options.SessionKey opts) = Some (sessions.VString uid) ->
  http.Method r = "GET" ->
  http.Get (http.Header r) "X-API-Key" = "" ->
  http.Cookies r = (pre ++ c1 :: rest)%list ->
  Forall (fun c => http.Name c <> "_csrf") pre ->
  http.Name c1 = "_csrf" ->
  exists σ' o,
    Generate mac AddDate Format opts s r σ = Some (tt, σ') /\
    context_of σ' = Some o /\
    (http.Value c1 <> "" -> Token o = http.Value c1 /\ ticks σ' = ticks σ) /\
    (http.Value c1 = "" ->
     Token o = xsrftoken.derive mac (Options.Secret opts) uid "POST" (now_of σ)).
Proof.
  intros Hs Hget Hkey Hck Hpre Hname.
  pose proof (Request_Cookie_first r "_csrf" pre c1 rest Hck Hpre Hname) as Hex.
  destruct (String.eqb_spec (http.Value c1) "") as [Hv|Hv].
  - assert (Hno : forall ex, http.Request_Cookie r "_csrf" = Some ex -> http.Value ex = "")
      by (intros ex; rewrite Hex; intros [= <-]; exact Hv).
    pose proof (Generate_mint mac AddDate Format opts s r σ uid Hs
                  (issuing r Hget Hkey) Hno) as Hrun.
    cbv zeta in Hrun.
    destruct (Options.SetCookie opts);
      (eexists _, _; split; [exact Hrun|]; split; [apply generated_lookup|];
       split; [intros Hne; now destruct Hne | intros _; reflexivity]).
  - eexists _, _.
    split; [exact (Generate_reuse mac AddDate Format opts s r σ uid c1 Hs
                     (issuing r Hget Hkey) Hex Hv)|].
    split; [apply generated_lookup|].
    split; [intros _; split; reflexivity | intros E; now destruct Hv].
Qed.

Lemma first_csrf_cookie_decides_witness :
  (exists σ' o,
     Generate sample.mac sample.AddDate sample.Format sample.opts sample.session
       (scenario.get_with_two_cookies "abc" "xyz") sample.start = Some (tt, σ') /\
     context_of σ' = Some o /\ Token o = "abc") /\
  (exists σ' o,
     Generate sample.mac sample.AddDate sample.Format sample.opts sample.session
       (scenario.get_with_two_cookies "" "xyz") sample.start = Some (tt, σ') /\
     context_of σ' = Some o /\
     Token o = xsrftoken.derive sample.mac "token123" "123456" "POST" 1700000000000000000).
Proof.
  split.
  - destruct (first_csrf_cookie_decides sample.mac sample.AddDate sample.Format
                sample.opts sample.session (scenario.get_with_two_cookies "abc" "xyz")
                sample.start "123456" [] (sample.cookie "_csrf" "abc")
                [sample.cookie "_csrf" "xyz"])
      as (σ' & o & Hrun & Hctx & Hyes & _);
      [reflexivity | reflexivity | reflexivity | reflexivity | constructor | reflexivity |].
    exists σ', o. split; [exact Hrun|]. split; [exact Hctx|].
    apply Hyes. discriminate.
  - destruct (first_csrf_cookie_decides sample.mac sample.AddDate sample.Format
                sample.opts sample.session (scenario.get_with_two_cookies "" "xyz")
                sample.start "123456" [] (sample.cookie "_csrf" "")
                [sample.cookie "_csrf" "xyz"])
      as (σ' & o & Hrun & Hctx & _ & Hno);
      [reflexivity | reflexivity | reflexivity | reflexivity | constructor | reflexivity |].
    exists σ', o. split; [exact Hrun|]. split; [exact Hctx|].
    apply Hno. reflexivity.
Defined.

(** X9. A token issued on one request is accepted on a later one. Let
    [Generate] derive a token on a GET request; on any later request of the
    same session that is not a GET and carries that token as its candidate,
    [Generate] followed by [Validate] on the mapped context never panics,
    and it passes without writing anything when less than the expiry
    duration lies between the two clock readings, and replies 400 with the
    line of the candidate's channel when that duration has elapsed. *)
Theorem issued_token_round_trip
    (mac : string -> string -> string -> Z -> string)
    (AddDate : Time -> Z -> Z -> Z -> Time) (Format : Time -> string -> string)
    opts s uid r1 r2 σ1 σ2 :
  sessions.Get s (Options.SessionKey opts) = Some (sessions.VString uid) ->
  http.Method r1 = "GET" ->
  http.Get (http.Header r1) "X-API-Key" = "" ->
  (forall ex, http.Request_Cookie r1 "_csrf" = Some ex -> http.Value ex = "") ->
  http.Method r2 <> "GET" ->
  http.Status (writer σ2) = None ->
  exists σ1' x1 tok,
    Generate mac AddDate Format opts s r1 σ1 = Some (tt, σ1') /\
    mapped σ1' = Some x1 /\
    csrf_GetToken x1 σ1' = Some (tok, σ1') /\
    tok = xsrftoken.derive mac (Options.Secret opts) uid "POST" (now_of σ1) /\
    (candidate r2 = tok ->
     exists σ2' x2 σ2'',
       Generate mac AddDate Format opts s r2 σ2 = Some (tt, σ2') /\
       mapped σ2' = Some x2 /\
       Validate (H := csrf_Csrf mac) r2 x2 σ2' = Some (tt, σ2'') /\
       (now_of σ2 - now_of σ1 < xsrftoken.Timeout -> writer σ2'' = writer σ2) /\
       (xsrftoken.Timeout <= now_of σ2 - now_of σ1 ->
        http.Status (writer σ2'') = Some 400 /\
        http.Body (writer σ2'') = (http.Body (writer σ2) ++ [rejection r2])%list)).
Proof.
  intros Hs Hget Hkey Hno Hpost Hst.
  pose proof (Generate_mint mac AddDate Format opts s r1 σ1 uid Hs
                (issuing r1 Hget Hkey) Hno) as Hrun1.
  cbv zeta in Hrun1.
  set (tok := xsrftoken.derive mac (Options.Secret opts) uid "POST" (now_of σ1)) in *.
  set (o1 := {| Token := tok; Id := uid; Secret := Options.Secret opts |}) in *.
  assert (H1 : exists w n,
             Generate mac AddDate Format opts s r1 σ1 = Some (tt, generated σ1 o1 w n)).
  { destruct (Options.SetCookie opts); eauto. }
  destruct H1 as (w1 & n1 & H1).
  destruct (generated_lookup σ1 o1 w1 n1) as (Hm1 & Hx1 & _ & _).
  exists (generated σ1 o1 w1 n1), (fresh (dom (heap σ1))), tok.
  split; [exact H1|]. split; [exact Hm1|]. split; [exact (GetToken_run _ _ _ Hx1)|].
  split; [reflexivity|].
  intros Hcand.
  set (o2 := {| Token := ""; Id := uid; Secret := Options.Secret opts |}).
  destruct (generated_lookup σ2 o2 (writer σ2) 0) as (Hm2 & Hx2 & _ & _).
  eexists (generated σ2 o2 (writer σ2) 0), (fresh (dom (heap σ2))), _.
  split; [exact (Generate_not_issuing mac AddDate Format _ _ _ _ _ Hs
                   (not_GET_not_issuing r2 Hpost))|].
  split; [exact Hm2|].
  split; [exact (Validate_csrf_run mac r2 _ o2 _ Hx2)|].
  assert (Hne : String.eqb (candidate r2) "" = false)
    by (rewrite Hcand; apply String.eqb_neq, derive_nonempty).
  rewrite Hne, Hcand. cbn [Secret Id o2].
  change (now_of (generated σ2 o2 (writer σ2) 0)) with (now_of σ2).
  split.
  - intros Hw. unfold tok. rewrite verify_derive; [reflexivity|].
    unfold xsrftoken.within_window. now apply Z.ltb_lt.
  - intros Hold. unfold tok. rewrite verify_expired.
    + destruct (Error_reply (rejection r2) 400
                  (writer (tick (generated σ2 o2 (writer σ2) 0))) Hst)
        as (E1 & E2 & _). split; [exact E1 | exact E2].
    + unfold xsrftoken.within_window. now apply Z.ltb_ge.
Qed.

Lemma issued_token_round_trip_witness :
  let tok := xsrftoken.derive sample.mac "token123" "123456" "POST" 1700000000000000000 in
  (exists σ2' x2 σ2'',
     Generate sample.mac sample.AddDate sample.Format sample.opts sample.session
       (sample.post_with_header tok) (scenario.start_after 3600000000000)
     = Some (tt, σ2') /\
     mapped σ2' = Some x2 /\
     Validate (H := csrf_Csrf sample.mac) (sample.post_with_header tok) x2 σ2'
     = Some (tt, σ2'') /\
     writer σ2'' = http.blank) /\
  (exists σ2' x2 σ2'',
     Generate sample.mac sample.AddDate sample.Format sample.opts sample.session
       (sample.post_with_field tok) (scenario.start_after 90000000000000)
     = Some (tt, σ2') /\
     mapped σ2' = Some x2 /\
     Validate (H := csrf_Csrf sample.mac) (sample.post_with_field tok) x2 σ2'
     = Some (tt, σ2'') /\
     http.Status (writer σ2'') = Some 400 /\
     http.Body (writer σ2'') = ["Invalid _csrf token"]).
Proof.
  intros tok. split.
  - destruct (issued_token_round_trip sample.mac sample.AddDate sample.Format
                sample.opts sample.session "123456" sample.get_page
                (sample.post_with_header tok) sample.start
                (scenario.start_after 3600000000000))
      as (σ1' & x1 & tok' & _ & _ & _ & Htok & Hlater).
    + reflexivity.
    + reflexivity.
    + reflexivity.
    + intros ex Hex. vm_compute in Hex. discriminate.
    + vm_compute. discriminate.
    + reflexivity.
    + destruct Hlater as (σ2' & x2 & σ2'' & Hrun & Hm & Hval & Hok & _);
        [rewrite Htok; vm_compute; reflexivity|].
      exists σ2', x2, σ2''. split; [exact Hrun|]. split; [exact Hm|].
      split; [exact Hval|]. apply Hok. vm_compute. reflexivity.
  - destruct (issued_token_round_trip sample.mac sample.AddDate sample.Format
                sample.opts sample.session "123456" sample.get_page
                (sample.post_with_field tok) sample.start
                (scenario.start_after 90000000000000))
      as (σ1' & x1 & tok' & _ & _ & _ & Htok & Hlater).
    + reflexivity.
    + reflexivity.
    + reflexivity.
    + intros ex Hex. vm_compute in Hex. discriminate.
    + vm_compute. discriminate.
    + reflexivity.
    + destruct Hlater as (σ2' & x2 & σ2'' & Hrun & Hm & Hval & _ & Hold);
        [rewrite Htok; vm_compute; reflexivity|].
      exists σ2', x2, σ2''. split; [exact Hrun|]. split; [exact Hm|].
      split; [exact Hval|]. apply Hold. vm_compute. discriminate.
Defined.
